(** * IP Address API Service: the validator and the client-IP resolver

    A shallow embedding of [src/main.py] (functions [validate_ip],
    [get_real_client_ip] and [get_client_ip]) together with the part of
    Python's standard [ipaddress] module that [validate_ip] calls
    ([ip_address], the string constructors of [IPv4Address] and
    [IPv6Address]).

    The model of [ipaddress] follows CPython's [Lib/ipaddress.py]
    statement by statement, restricted to string arguments.

    Strings.  WSGI hands header values and [REMOTE_ADDR] to the application
    as latin-1 decoded native strings, so every character is a code point
    below 256: they are modelled by [string], whose characters are the
    8-bit [ascii].

    Exceptions.  Code that can raise returns a [result]; [try]/[except]
    is [try_except], which catches by exception class. *)

From Stdlib Require Import ZArith Ascii String List Bool Lia.
From stdpp Require Import gmap strings list.

Open Scope string_scope.
Open Scope list_scope.
Open Scope Z_scope.

(** ** Exceptions *)

Inductive exn : Set :=
| ValueError
| AddressValueError    (* class AddressValueError(ValueError) *)
| NetmaskValueError    (* class NetmaskValueError(ValueError) *)
| IndexError
| AttributeError.

Inductive result (A : Type) : Type :=
| Ok (a : A)
| Raise (e : exn).
Arguments Ok {A} a.
Arguments Raise {A} e.

Definition bind {A B} (r : result A) (k : A -> result B) : result B :=
  match r with
  | Ok a => k a
  | Raise e => Raise e
  end.

Notation "'let*' x ':=' r 'in' k" := (bind r (fun x => k))
  (at level 10, x pattern, r at level 100, k at level 200).

(** [isinstance(e, ValueError)]: the class and its two subclasses. *)
Definition is_ValueError (e : exn) : bool :=
  match e with
  | ValueError | AddressValueError | NetmaskValueError => true
  | IndexError | AttributeError => false
  end.

(** [except (AddressValueError, NetmaskValueError)]. *)
Definition is_Address_or_Netmask_error (e : exn) : bool :=
  match e with
  | AddressValueError | NetmaskValueError => true
  | ValueError | IndexError | AttributeError => false
  end.

Definition is_AddressValueError (e : exn) : bool :=
  match e with
  | AddressValueError => true
  | _ => false
  end.

(** [try: body  except <classes>: handler]; an exception outside the
    classes propagates. *)
Definition try_except {A} (body : result A) (classes : exn -> bool)
    (handler : result A) : result A :=
  match body with
  | Ok a => Ok a
  | Raise e => if classes e then handler else Raise e
  end.

Fixpoint mapM {A B} (f : A -> result B) (l : list A) : result (list B) :=
  match l with
  | [] => Ok []
  | x :: l' =>
      let* y := f x in
      let* ys := mapM f l' in
      Ok (y :: ys)
  end.

(** [for x in l: s = body(x, s)], the body may raise. *)
Fixpoint for_ {X S} (l : list X) (s : S) (body : X -> S -> result S)
    : result S :=
  match l with
  | [] => Ok s
  | x :: l' =>
      let* s' := body x s in
      for_ l' s' body
  end.

(** ** Python strings and lists *)

Definition ord (c : ascii) : Z := Z.of_N (N_of_ascii c).

(** [str.isspace] on a code point below 256: TAB..CR, FS..US, SPACE,
    NEL (0x85) and NBSP (0xA0). *)
Definition isspace (c : ascii) : bool :=
  let n := ord c in
  ((9 <=? n) && (n <=? 13)) || ((28 <=? n) && (n <=? 32))
  || (n =? 133) || (n =? 160).

Fixpoint lstrip (s : string) : string :=
  match s with
  | EmptyString => EmptyString
  | String c s' => if isspace c then lstrip s' else s
  end.

Fixpoint rstrip (s : string) : string :=
  match s with
  | EmptyString => EmptyString
  | String c s' =>
      match rstrip s' with
      | EmptyString => if isspace c then EmptyString else String c EmptyString
      | r => String c r
      end
  end.

(** [s.strip()] *)
Definition strip (s : string) : string := rstrip (lstrip s).

(** [s.split(sep)] for a one-character separator: never an empty list. *)
Fixpoint split (sep : ascii) (s : string) : list string :=
  match s with
  | EmptyString => [EmptyString]
  | String c s' =>
      if Ascii.eqb c sep then EmptyString :: split sep s'
      else match split sep s' with
           | h :: t => String c h :: t
           | [] => [String c EmptyString]
           end
  end.

(** [c in s] for a one-character [c]. *)
Fixpoint contains (c : ascii) (s : string) : bool :=
  match s with
  | EmptyString => false
  | String d s' => Ascii.eqb d c || contains c s'
  end.

(** [s.partition(sep)]: (before, sep, after), or (s, "", "") when [sep]
    does not occur. *)
Fixpoint partition (sep : ascii) (s : string) : string * string * string :=
  match s with
  | EmptyString => (EmptyString, EmptyString, EmptyString)
  | String c s' =>
      if Ascii.eqb c sep then (EmptyString, String sep EmptyString, s')
      else let '(a, m, b) := partition sep s' in (String c a, m, b)
  end.

(** Truth value of a string: non-empty. *)
Definition truthy (s : string) : bool :=
  match s with
  | EmptyString => false
  | String _ _ => true
  end.

Definition len_str (s : string) : Z := Z.of_nat (String.length s).
Definition len {A} (l : list A) : Z := Z.of_nat (length l).

(** [s[i]] for [0 <= i]. *)
Definition str_getitem (s : string) (i : nat) : result ascii :=
  match String.get i s with
  | Some c => Ok c
  | None => Raise IndexError
  end.

(** [l[i]], negative indices count from the end. *)
Definition getitem {A} (l : list A) (i : Z) : result A :=
  let j := if i <? 0 then i + len l else i in
  if j <? 0 then Raise IndexError
  else match nth_error l (Z.to_nat j) with
       | Some x => Ok x
       | None => Raise IndexError
       end.

(** [l.pop()]: the last element and the list without it. *)
Definition pop {A} (l : list A) : result (A * list A) :=
  match last l with
  | Some x => Ok (x, removelast l)
  | None => Raise IndexError
  end.

(** [range(a, b)] *)
Definition range (a b : Z) : list Z :=
  map (fun k => a + Z.of_nat k) (seq 0 (Z.to_nat (b - a))).

Definition is_ascii_digit (c : ascii) : bool :=
  (48 <=? ord c) && (ord c <=? 57).

(** [s.isascii() and s.isdigit()] *)
Definition isascii_isdigit (s : string) : bool :=
  truthy s && forallb is_ascii_digit (list_ascii_of_string s).

(** Value of a digit in base 16 and below, [None] for any other
    character. *)
Definition digit_value (c : ascii) : option Z :=
  let n := ord c in
  if (48 <=? n) && (n <=? 57) then Some (n - 48)
  else if (97 <=? n) && (n <=? 102) then Some (n - 87)
  else if (65 <=? n) && (n <=? 70) then Some (n - 55)
  else None.

Fixpoint int_digits (base : Z) (acc : Z) (s : string) : result Z :=
  match s with
  | EmptyString => Ok acc
  | String c s' =>
      match digit_value c with
      | Some d => if d <? base then int_digits base (acc * base + d) s'
                  else Raise ValueError
      | None => Raise ValueError
      end
  end.

(** [int(s, base)] on the strings that reach it in [ipaddress]: its
    callers have already excluded signs, blanks, underscores and prefixes
    by their character checks, so what is left of [int] is the digit loop
    and the [ValueError] on the empty string or on a foreign character. *)
Definition int (s : string) (base : Z) : result Z :=
  if truthy s then int_digits base 0 s else Raise ValueError.

Definition hex_char (d : Z) : ascii :=
  ascii_of_N (Z.to_N (if d <? 10 then 48 + d else 87 + d)).

Fixpoint format_x_pos (fuel : nat) (n : Z) (acc : string) : string :=
  match fuel with
  | O => acc
  | S fuel' =>
      let acc' := String (hex_char (n mod 16)) acc in
      if n / 16 =? 0 then acc' else format_x_pos fuel' (n / 16) acc'
  end.

(** ['%x' % n] for [0 <= n]: lower-case, no leading zeros. The number of
    hexadecimal digits of [n] is at most [log2 n + 1]. *)
Definition format_x (n : Z) : string :=
  format_x_pos (S (Z.to_nat (Z.log2 n))) n EmptyString.

(** [int.from_bytes(bytes(l), 'big')]; [bytes] wants every element in
    [range(256)]. *)
Definition int_from_bytes_big (l : list Z) : result Z :=
  for_ l 0 (fun b acc =>
    if (0 <=? b) && (b <? 256) then Ok (acc * 256 + b)
    else Raise ValueError).

(** ** [ipaddress]: IPv4 *)

Module BaseV4.

Definition _parse_octet (octet_str : string) : result Z :=
  if negb (truthy octet_str) then Raise ValueError
  else if negb (isascii_isdigit octet_str) then Raise ValueError
  else if 3 <? len_str octet_str then Raise ValueError
  else
    let* leading_zero :=
      if negb (String.eqb octet_str "0") then
        let* c := str_getitem octet_str 0 in
        Ok (Ascii.eqb c "0"%char)
      else Ok false in
    if leading_zero then Raise ValueError
    else
      let* octet_int := int octet_str 10 in
      if 255 <? octet_int then Raise ValueError
      else Ok octet_int.

Definition _ip_int_from_string (ip_str : string) : result Z :=
  if negb (truthy ip_str) then Raise AddressValueError
  else
    let octets := split "."%char ip_str in
    if negb (len octets =? 4) then Raise AddressValueError
    else
      try_except
        (let* bs := mapM _parse_octet octets in int_from_bytes_big bs)
        is_ValueError
        (Raise AddressValueError).

End BaseV4.

(** An address object: [_ip] is the integer value; an IPv6 address also
    carries its [_scope_id] (the text after [%], if any). *)
Inductive IPAddress : Type :=
| IPv4Address (ip_int : Z)
| IPv6Address (ip_int : Z) (scope_id : option string).

(** [IPv4Address(address)] for a string argument. *)
Definition IPv4Address_init (address : string) : result IPAddress :=
  let addr_str := address in
  if contains "/"%char addr_str then Raise AddressValueError
  else
    let* ip := BaseV4._ip_int_from_string addr_str in
    Ok (IPv4Address ip).

(** The attribute [_ip]. *)
Definition _ip (a : IPAddress) : Z :=
  match a with
  | IPv4Address ip => ip
  | IPv6Address ip _ => ip
  end.

(** ** [ipaddress]: IPv6 *)

Module BaseV6.

Definition _HEXTET_COUNT : Z := 8.

(** [_HEX_DIGITS = frozenset('0123456789ABCDEFabcdef')] *)
Definition _HEX_DIGITS (c : ascii) : bool :=
  let n := ord c in
  ((48 <=? n) && (n <=? 57)) || ((65 <=? n) && (n <=? 70))
  || ((97 <=? n) && (n <=? 102)).

Definition _parse_hextet (hextet_str : string) : result Z :=
  if negb (forallb _HEX_DIGITS (list_ascii_of_string hextet_str))
  then Raise ValueError
  else if 4 <? len_str hextet_str then Raise ValueError
  else int hextet_str 16.

(** The loop that looks for an empty part strictly between the end
    points; the state is [skip_index]. *)
Definition find_skip_index (parts : list string) : result (option Z) :=
  for_ (range 1 (len parts - 1)) None (fun i skip_index =>
    let* p := getitem parts i in
    if negb (truthy p) then
      match skip_index with
      | Some _ => Raise AddressValueError
      | None => Ok (Some i)
      end
    else Ok skip_index).

Definition _ip_int_from_string (ip_str : string) : result Z :=
  if negb (truthy ip_str) then Raise AddressValueError
  else
    let parts := split ":"%char ip_str in
    let _min_parts := 3 in
    if len parts <? _min_parts then Raise AddressValueError
    else
      (* an IPv4-style suffix is turned into two hextets *)
      let* last_part := getitem parts (-1) in
      let* parts :=
        if contains "."%char last_part then
          let* (popped, parts) := pop parts in
          let* ipv4 :=
            try_except (IPv4Address_init popped)
              is_AddressValueError (Raise AddressValueError) in
          let ipv4_int := _ip ipv4 in
          let parts :=
            (parts ++ [format_x (Z.land (Z.shiftr ipv4_int 16) 65535)])%list in
          let parts := (parts ++ [format_x (Z.land ipv4_int 65535)])%list in
          Ok parts
        else Ok parts in
      let _max_parts := _HEXTET_COUNT + 1 in
      if _max_parts <? len parts then Raise AddressValueError
      else
        let* skip_index := find_skip_index parts in
        let* (parts_hi, parts_lo, parts_skipped) :=
          match skip_index with
          | Some skip_index =>
              let parts_hi := skip_index in
              let parts_lo := len parts - skip_index - 1 in
              let* first := getitem parts 0 in
              let* parts_hi :=
                if negb (truthy first) then
                  let parts_hi := parts_hi - 1 in
                  if negb (parts_hi =? 0) then Raise AddressValueError
                  else Ok parts_hi
                else Ok parts_hi in
              let* last_part := getitem parts (-1) in
              let* parts_lo :=
                if negb (truthy last_part) then
                  let parts_lo := parts_lo - 1 in
                  if negb (parts_lo =? 0) then Raise AddressValueError
                  else Ok parts_lo
                else Ok parts_lo in
              let parts_skipped := _HEXTET_COUNT - (parts_hi + parts_lo) in
              if parts_skipped <? 1 then Raise AddressValueError
              else Ok (parts_hi, parts_lo, parts_skipped)
          | None =>
              if negb (len parts =? _HEXTET_COUNT)
              then Raise AddressValueError
              else
                let* first := getitem parts 0 in
                if negb (truthy first) then Raise AddressValueError
                else
                  let* last_part := getitem parts (-1) in
                  if negb (truthy last_part) then Raise AddressValueError
                  else Ok (len parts, 0, 0)
          end in
        try_except
          (let* ip_int :=
             for_ (range 0 parts_hi) 0 (fun i ip_int =>
               let ip_int := Z.shiftl ip_int 16 in
               let* part := getitem parts i in
               let* h := _parse_hextet part in
               Ok (Z.lor ip_int h)) in
           let ip_int := Z.shiftl ip_int (16 * parts_skipped) in
           for_ (range (- parts_lo) 0) ip_int (fun i ip_int =>
             let ip_int := Z.shiftl ip_int 16 in
             let* part := getitem parts i in
             let* h := _parse_hextet part in
             Ok (Z.lor ip_int h)))
          is_ValueError
          (Raise AddressValueError).

(** [addr, sep, scope_id = ip_str.partition('%')] *)
Definition _split_scope_id (ip_str : string)
    : result (string * option string) :=
  let '(addr, sep, scope_id) := partition "%"%char ip_str in
  if negb (truthy sep) then Ok (addr, None)
  else if negb (truthy scope_id) || contains "%"%char scope_id
       then Raise AddressValueError
       else Ok (addr, Some scope_id).

End BaseV6.

(** [IPv6Address(address)] for a string argument. *)
Definition IPv6Address_init (address : string) : result IPAddress :=
  let addr_str := address in
  if contains "/"%char addr_str then Raise AddressValueError
  else
    let* (addr_str, scope_id) := BaseV6._split_scope_id addr_str in
    let* ip := BaseV6._ip_int_from_string addr_str in
    Ok (IPv6Address ip scope_id).

(** [ipaddress.ip_address(address)] for a string argument. *)
Definition ip_address (address : string) : result IPAddress :=
  match IPv4Address_init address with
  | Ok a => Ok a
  | Raise e =>
      if is_Address_or_Netmask_error e then
        match IPv6Address_init address with
        | Ok a => Ok a
        | Raise e =>
            if is_Address_or_Netmask_error e then Raise ValueError
            else Raise e
        end
      else Raise e
  end.

Definition isinstance_IPv4Address (a : IPAddress) : bool :=
  match a with
  | IPv4Address _ => true
  | IPv6Address _ _ => false
  end.

(** ** [src/main.py] *)

(** [validate_ip]: the address, or [None] when [ip_address] raises a
    [ValueError]. *)
Definition validate_ip (ip_str : string) : result (option IPAddress) :=
  try_except
    (let* a := ip_address (strip ip_str) in Ok (Some a))
    is_ValueError
    (Ok None).

(** An address object is always true in a condition: the classes define
    neither [__bool__] nor [__len__]; [None] is false. *)
Definition truth (v : option IPAddress) : bool :=
  match v with
  | Some _ => true
  | None => false
  end.

(** [class ProductionConfig], read through [app.config]. *)
Record Config : Type := {
  TRUSTED_PROXIES : gset string;
  PROXY_LAYERS : Z;
  LOG_LEVEL : Z;
  LOG_FORMAT : string
}.

Definition ProductionConfig : Config := {|
  TRUSTED_PROXIES := {[ "127.0.0.1"; "::1" ]};
  PROXY_LAYERS := 5;
  LOG_LEVEL := 20;  (* logging.INFO *)
  LOG_FORMAT := "%(asctime)s - %(levelname)s - %(message)s"
|}.

(** Flask's [request]: the headers by name, the peer address
    ([None] when the server recorded none), method and path.  The map is
    keyed by the names the code looks up; [name in request.headers]
    followed by [request.headers.get(name)] is one lookup. *)
Record Request : Type := {
  headers : gmap string string;
  remote_addr : option string;
  method : string;
  path : string
}.

(** What a view function can see: the request being handled and the
    application's configuration. *)
Record Context : Type := {
  request : Request;
  app_config : Config
}.

(** The loop over [reversed(proxies)], with its [break]. *)
Fixpoint scan_proxies (trusted_proxies : gset string) (l : list string)
    (client_ip : string) : result string :=
  match l with
  | [] => Ok client_ip
  | ip :: l' =>
      let* v := validate_ip ip in
      if truth v && negb (bool_decide (ip ∈ trusted_proxies))
      then Ok ip
      else scan_proxies trusted_proxies l' client_ip
  end.

Definition get_real_client_ip (ctx : Context) : result string :=
  let client_ip := "unknown" in
  (* X-Forwarded-For *)
  let* client_ip :=
    match headers (request ctx) !! "X-Forwarded-For" with
    | Some xff =>
        let proxies := map strip (split ","%char xff) in
        let trusted_proxies := TRUSTED_PROXIES (app_config ctx) in
        scan_proxies trusted_proxies (rev proxies) client_ip
    | None => Ok client_ip
    end in
  (* X-Real-IP *)
  let* client_ip :=
    if String.eqb client_ip "unknown" then
      match headers (request ctx) !! "X-Real-IP" with
      | Some xri =>
          let* v := validate_ip xri in
          if truth v then Ok xri else Ok client_ip
      | None => Ok client_ip
      end
    else Ok client_ip in
  (* remote_addr *)
  let client_ip :=
    if String.eqb client_ip "unknown" then
      match remote_addr (request ctx) with
      | Some a => if truthy a then a else "unknown"
      | None => "unknown"
      end
    else client_ip in
  Ok client_ip.

(** The JSON body of [GET /ip]. *)
Record Network : Type := {
  is_global : bool;
  version : string
}.

Record Meta : Type := {
  forwarded_for : option string;
  real_ip : option string;
  meta_remote_addr : option string
}.

Record IpBody : Type := {
  ip : string;
  network : Network;
  meta : Meta
}.

Section Endpoint.

(** The [is_global] property of an address object: membership in the
    address allocation tables of the standard library, which the
    handler only reads. *)
Variable addr_is_global : IPAddress -> bool.

Definition get_client_ip (ctx : Context) : result IpBody :=
  let* client_ip := get_real_client_ip ctx in
  let* g :=
    let* c := validate_ip client_ip in
    if truth c then
      let* a := validate_ip client_ip in
      match a with
      | Some a => Ok (addr_is_global a)
      | None => Raise AttributeError
      end
    else Ok false in
  let* v :=
    let* a := validate_ip client_ip in
    if match a with Some a => isinstance_IPv4Address a | None => false end
    then Ok "v4"
    else
      let* c := validate_ip client_ip in
      if truth c then Ok "v6" else Ok "invalid" in
  Ok {| ip := client_ip;
        network := {| is_global := g; version := v |};
        meta := {| forwarded_for :=
                     headers (request ctx) !! "X-Forwarded-For";
                   real_ip := headers (request ctx) !! "X-Real-IP";
                   meta_remote_addr := remote_addr (request ctx) |} |}.

End Endpoint.

(** ** Decimal writing of integers *)

(** [str(n)] for an integer: decimal digits, a minus sign when negative.
    [n] has at most [log2 n + 1] decimal digits. *)
Fixpoint str_digits (fuel : nat) (n : Z) (acc : string) : string :=
  match fuel with
  | O => acc
  | S fuel' =>
      let acc' := String (ascii_of_N (Z.to_N (48 + n mod 10))) acc in
      if n / 10 =? 0 then acc' else str_digits fuel' (n / 10) acc'
  end.

Definition str (n : Z) : string :=
  if n <? 0
  then String "-" (str_digits (S (Z.to_nat (Z.log2 (- n)))) (- n) EmptyString)
  else str_digits (S (Z.to_nat (Z.log2 n))) n EmptyString.

(** ** Notions used in the further properties *)

(** The same request with one header set to a value. *)
Definition set_header (name value : string) (ctx : Context) : Context :=
  {| request := {| headers := <[name := value]> (headers (request ctx));
                   remote_addr := remote_addr (request ctx);
                   method := method (request ctx);
                   path := path (request ctx) |};
     app_config := app_config ctx |}.

(** The same request under a configuration that trusts one more proxy. *)
Definition trust (t : string) (ctx : Context) : Context :=
  {| request := request ctx;
     app_config :=
       {| TRUSTED_PROXIES := {[ t ]} ∪ TRUSTED_PROXIES (app_config ctx);
          PROXY_LAYERS := PROXY_LAYERS (app_config ctx);
          LOG_LEVEL := LOG_LEVEL (app_config ctx);
          LOG_FORMAT := LOG_FORMAT (app_config ctx) |} |}.

(** An octet written with a leading zero: ["0"] followed by more. *)
Definition leading_zero (o : string) : bool :=
  match o with
  | String c (String _ _) => Ascii.eqb c "0"
  | _ => false
  end.

(** ** Notions used in the statements *)

Definition result_sat {A} (Q : A -> Prop) (P : exn -> Prop)
    (r : result A) : Prop :=
  match r with
  | Ok a => Q a
  | Raise e => P e
  end.

Definition raises_only {A} (P : exn -> Prop) (r : result A) : Prop :=
  result_sat (fun _ => True) P r.

Definition lstripped (s : string) : Prop :=
  match s with
  | EmptyString => True
  | String c _ => isspace c = false
  end.

(** A string that [validate_ip] accepts. *)
Definition valid (s : string) : bool :=
  match validate_ip s with
  | Ok (Some _) => true
  | _ => false
  end.

(** The test of the loop body on one candidate. *)
Definition candidate_ok (trusted : gset string) (ip : string) : bool :=
  valid ip && negb (bool_decide (ip ∈ trusted)).

(** [X-Forwarded-For] as a chain: split on commas, every element trimmed. *)
Definition forwarding_chain (xff : string) : list string :=
  map strip (split "," xff).

(** What step 1 selects: the first acceptable candidate from the right. *)
Definition xff_step (ctx : Context) : option string :=
  match headers (request ctx) !! "X-Forwarded-For" with
  | Some xff =>
      find (candidate_ok (TRUSTED_PROXIES (app_config ctx)))
        (rev (forwarding_chain xff))
  | None => None
  end.

(** What step 2 selects: the raw header value when it validates. *)
Definition xri_step (ctx : Context) : option string :=
  match headers (request ctx) !! "X-Real-IP" with
  | Some xri => if valid xri then Some xri else None
  | None => None
  end.

(** What steps 3 and 4 give. *)
Definition peer_or_unknown (ctx : Context) : string :=
  match remote_addr (request ctx) with
  | Some a => if truthy a then a else "unknown"
  | None => "unknown"
  end.

(** A request as the handlers see it, under the production
    configuration: used for the scenarios below. *)
Definition test_context (h : list (string * string)) (peer : option string)
    : Context :=
  {| request := {| headers := list_to_map h; remote_addr := peer;
                   method := "GET"; path := "/ip" |};
     app_config := ProductionConfig |}.

(** [sep.join(l)], to write dotted quads. *)
Fixpoint join (sep : ascii) (l : list string) : string :=
  match l with
  | [] => EmptyString
  | [x] => x
  | x :: l' => (x ++ String sep (join sep l'))%string
  end.

Definition is_letter (c : ascii) : bool :=
  ((65 <=? ord c) && (ord c <=? 90)) || ((97 <=? ord c) && (ord c <=? 122)).

(** A host name: letters, digits, hyphens and dots, with a letter
    somewhere (every name under an alphabetic top-level domain). *)
Definition hostname (s : string) : bool :=
  forallb (fun c => is_letter c || is_ascii_digit c
                    || Ascii.eqb c "-" || Ascii.eqb c ".")
    (list_ascii_of_string s)
  && existsb is_letter (list_ascii_of_string s).

(** The characters of a dotted quad. *)
Definition dotted_char (c : ascii) : bool :=
  is_ascii_digit c || Ascii.eqb c ".".

(** The value of an octet as [int] reads it, when it is above 255. *)
Definition octet_above_255 (o : string) : bool :=
  match int o 10 with
  | Ok v => 255 <? v
  | Raise _ => false
  end.

(** A fact about one character, checked on each of the 256. *)
Ltac by_cases_on_char c :=
  destruct c as [[] [] [] [] [] [] [] []]; vm_compute;
  first [reflexivity | discriminate | congruence].

(** * Properties *)

(** ** Which exceptions a computation can raise *)

Lemma result_sat_bind {A B} (r : result A) (k : A -> result B) Q P :
  result_sat (fun a => result_sat Q P (k a)) P r ->
  result_sat Q P (bind r k).
Proof. destruct r; simpl; auto. Qed.

Lemma result_sat_weaken {A} (Q Q' : A -> Prop) (P P' : exn -> Prop) r :
  (forall a, Q a -> Q' a) -> (forall e, P e -> P' e) ->
  result_sat Q P r -> result_sat Q' P' r.
Proof. destruct r; simpl; auto. Qed.

Lemma raises_only_bind {A B} (r : result A) (k : A -> result B) P :
  raises_only P r -> (forall a, raises_only P (k a)) ->
  raises_only P (bind r k).
Proof. destruct r; simpl; auto. Qed.

Lemma for_sat {X S} (I : S -> Prop) (P : exn -> Prop) (l : list X)
    (body : X -> S -> result S) :
  forall s, I s ->
  (forall x s, In x l -> I s -> result_sat I P (body x s)) ->
  result_sat I P (for_ l s body).
Proof.
  induction l as [|x l IH]; intros s Hs Hbody; simpl; [exact Hs|].
  apply result_sat_bind.
  specialize (Hbody x s (or_introl eq_refl) Hs) as Hx.
  destruct (body x s) as [s'|e]; simpl in *; [|exact Hx].
  apply IH; [exact Hx|].
  intros y t Hy Ht. apply Hbody; [right; exact Hy|exact Ht].
Qed.

Lemma mapM_raises_only {A B} (f : A -> result B) P (l : list A) :
  (forall x, raises_only P (f x)) -> raises_only P (mapM f l).
Proof.
  intros Hf. induction l as [|x l IH]; simpl; [exact I|].
  apply raises_only_bind; [apply Hf|]. intros y.
  apply raises_only_bind; [exact IH|]. intros ys. exact I.
Qed.

Lemma In_range a b i : In i (range a b) -> a <= i < b.
Proof.
  unfold range. intros H. apply in_map_iff in H as [k [<- Hk]].
  apply in_seq in Hk. lia.
Qed.

Lemma getitem_ok {A} (l : list A) (i : Z) :
  - len l <= i < len l -> exists x, getitem l i = Ok x.
Proof.
  unfold getitem, len. intros Hi.
  set (j := if i <? 0 then i + Z.of_nat (length l) else i).
  assert (Hj : 0 <= j < Z.of_nat (length l)).
  { subst j. destruct (Z.ltb_spec i 0); lia. }
  destruct (Z.ltb_spec j 0); [lia|].
  destruct (nth_error l (Z.to_nat j)) as [x|] eqn:E; [eauto|].
  apply nth_error_None in E. lia.
Qed.

Lemma pop_ok {A} (l : list A) :
  0 < len l ->
  exists x l', pop l = Ok (x, l') /\ len l' = len l - 1.
Proof.
  unfold pop, len. intros Hl.
  destruct l as [|a l] using rev_ind; [simpl in Hl; lia|].
  rewrite last_snoc. exists a, l. split.
  - f_equal. f_equal. apply removelast_last.
  - rewrite length_app. simpl. lia.
Qed.

(** ** The validator never raises *)

Lemma int_digits_raises base s : forall acc,
  raises_only (eq ValueError) (int_digits base acc s).
Proof.
  induction s as [|c s IH]; intros acc; simpl; [exact I|].
  destruct (digit_value c) as [d|]; [|reflexivity].
  destruct (d <? base); [apply IH|reflexivity].
Qed.

Lemma int_raises s base : raises_only (eq ValueError) (int s base).
Proof.
  unfold int. destruct (truthy s); [apply int_digits_raises|reflexivity].
Qed.

Lemma parse_octet_raises s :
  raises_only (eq ValueError) (BaseV4._parse_octet s).
Proof.
  unfold BaseV4._parse_octet.
  destruct s as [|c s]; [reflexivity|].
  cbn [truthy negb].
  destruct (isascii_isdigit (String c s)); [|reflexivity].
  destruct (3 <? len_str (String c s)); [reflexivity|].
  cbn [negb].
  apply raises_only_bind.
  - destruct (String.eqb (String c s) "0"); exact I.
  - intros lz. destruct lz; [reflexivity|].
    apply raises_only_bind; [apply int_raises|].
    intros v. destruct (255 <? v); [reflexivity|exact I].
Qed.

Lemma int_from_bytes_big_raises l :
  raises_only (eq ValueError) (int_from_bytes_big l).
Proof.
  unfold int_from_bytes_big, raises_only.
  apply for_sat; [exact I|].
  intros b acc _ _. destruct ((0 <=? b) && (b <? 256)); [exact I|reflexivity].
Qed.

Lemma try_except_ValueError {A} (body : result A) :
  raises_only (eq ValueError) body ->
  raises_only (eq AddressValueError)
    (try_except body is_ValueError (Raise AddressValueError)).
Proof. destruct body as [a|e]; simpl; [auto|]. intros <-. reflexivity. Qed.

Lemma V4_ip_int_from_string_raises s :
  raises_only (eq AddressValueError) (BaseV4._ip_int_from_string s).
Proof.
  unfold BaseV4._ip_int_from_string.
  destruct (truthy s); [|reflexivity]. cbn [negb].
  destruct (len (split "." s) =? 4); [|reflexivity]. cbn [negb].
  apply try_except_ValueError.
  apply raises_only_bind.
  - apply mapM_raises_only, parse_octet_raises.
  - intros bs. apply int_from_bytes_big_raises.
Qed.

Lemma IPv4Address_init_raises s :
  raises_only (eq AddressValueError) (IPv4Address_init s).
Proof.
  unfold IPv4Address_init.
  destruct (contains "/" s); [reflexivity|].
  apply raises_only_bind; [apply V4_ip_int_from_string_raises|].
  intros ip. exact I.
Qed.

Lemma parse_hextet_raises s :
  raises_only (eq ValueError) (BaseV6._parse_hextet s).
Proof.
  unfold BaseV6._parse_hextet.
  destruct (forallb BaseV6._HEX_DIGITS (list_ascii_of_string s));
    [|reflexivity].
  cbn [negb]. destruct (4 <? len_str s); [reflexivity|apply int_raises].
Qed.

Lemma find_skip_index_sat parts :
  result_sat
    (fun o => match o with
              | Some k => 1 <= k < len parts - 1
              | None => True
              end)
    (eq AddressValueError)
    (BaseV6.find_skip_index parts).
Proof.
  unfold BaseV6.find_skip_index.
  apply for_sat; [exact I|].
  intros i skip Hi Hskip. apply In_range in Hi.
  destruct (getitem_ok parts i) as [p Hp]; [lia|].
  rewrite Hp. cbn [bind result_sat].
  destruct (truthy p); cbn [negb]; [exact Hskip|].
  destruct skip; [reflexivity|]. cbn [result_sat]. lia.
Qed.

Lemma hextet_loop_raises (parts : list string) (l : list Z) (acc : Z) :
  (forall i, In i l -> - len parts <= i < len parts) ->
  raises_only (eq ValueError)
    (for_ l acc (fun i ip_int =>
       let ip_int := Z.shiftl ip_int 16 in
       let* part := getitem parts i in
       let* h := BaseV6._parse_hextet part in
       Ok (Z.lor ip_int h))).
Proof.
  intros Hl. unfold raises_only. apply for_sat; [exact I|].
  intros i s Hi _. cbv zeta.
  destruct (getitem_ok parts i) as [p Hp]; [auto|].
  rewrite Hp. cbn [bind].
  apply raises_only_bind; [apply parse_hextet_raises|]. intros h. exact I.
Qed.

Lemma hextets_raises (parts : list string) (hi lo skipped : Z) :
  0 <= hi <= len parts -> 0 <= lo <= len parts ->
  raises_only (eq AddressValueError)
    (try_except
       (let* ip_int :=
          for_ (range 0 hi) 0 (fun i ip_int =>
            let ip_int := Z.shiftl ip_int 16 in
            let* part := getitem parts i in
            let* h := BaseV6._parse_hextet part in
            Ok (Z.lor ip_int h)) in
        let ip_int := Z.shiftl ip_int (16 * skipped) in
        for_ (range (- lo) 0) ip_int (fun i ip_int =>
          let ip_int := Z.shiftl ip_int 16 in
          let* part := getitem parts i in
          let* h := BaseV6._parse_hextet part in
          Ok (Z.lor ip_int h)))
       is_ValueError
       (Raise AddressValueError)).
Proof.
  intros Hhi Hlo. apply try_except_ValueError.
  apply raises_only_bind.
  - apply hextet_loop_raises. intros i Hi. apply In_range in Hi. lia.
  - intros ip. cbv zeta.
    apply hextet_loop_raises. intros i Hi. apply In_range in Hi. lia.
Qed.

Lemma len_app {A} (l1 l2 : list A) : len (l1 ++ l2) = len l1 + len l2.
Proof. unfold len. rewrite length_app. lia. Qed.

Lemma V6_ip_int_from_string_raises s :
  raises_only (eq AddressValueError) (BaseV6._ip_int_from_string s).
Proof.
  unfold BaseV6._ip_int_from_string.
  destruct (truthy s); [|reflexivity]. cbn [negb]. cbv zeta.
  generalize (split ":" s). intros parts.
  destruct (Z.ltb_spec (len parts) 3) as [|Hlen]; [reflexivity|].
  destruct (getitem_ok parts (-1)) as [lp Hlp]; [lia|].
  rewrite Hlp. cbn [bind].
  apply result_sat_bind.
  (* the parts after the IPv4 suffix has been rewritten *)
  assert (Hparts :
    result_sat (fun parts' => 3 <= len parts') (eq AddressValueError)
      (if contains "." lp
       then
         let* (popped, parts0) := pop parts in
         let* ipv4 :=
           try_except (IPv4Address_init popped) is_AddressValueError
             (Raise AddressValueError) in
         Ok ((parts0
                ++ [format_x (Z.land (Z.shiftr (_ip ipv4) 16) 65535)])
               ++ [format_x (Z.land (_ip ipv4) 65535)])%list
       else Ok parts)).
  { destruct (contains "." lp); [|exact Hlen].
    destruct (pop_ok parts) as [x [l' [Hpop Hl']]]; [lia|].
    rewrite Hpop. cbn [bind].
    pose proof (IPv4Address_init_raises x) as Hx.
    destruct (IPv4Address_init x) as [a|e]; cbn in Hx |- *.
    - rewrite !len_app. unfold len at 2 3. simpl. lia.
    - subst e. reflexivity. }
  eapply result_sat_weaken; [| |exact Hparts]; [|auto].
  clear Hparts Hlp lp Hlen parts. intros parts Hlen. cbv beta in Hlen |- *.
  destruct (BaseV6._HEXTET_COUNT + 1 <? len parts); [reflexivity|].
  apply result_sat_bind.
  eapply result_sat_weaken; [| |apply find_skip_index_sat]; [|auto].
  intros skip Hskip. cbv beta in Hskip |- *.
  destruct (getitem_ok parts 0) as [p0 Hp0]; [lia|].
  destruct (getitem_ok parts (-1)) as [pl Hpl]; [lia|].
  apply result_sat_bind.
  apply result_sat_weaken with
    (Q := fun t => match t with
                   | (hi, lo, _) => 0 <= hi <= len parts /\ 0 <= lo <= len parts
                   end)
    (P := eq AddressValueError); [| auto |].
  { intros [[hi lo] sk] [Hhi Hlo]. apply hextets_raises; assumption. }
  destruct skip as [k|].
  - rewrite Hp0, Hpl. cbn [bind].
    apply result_sat_bind.
    apply result_sat_weaken with
      (Q := fun hi => 0 <= hi <= k) (P := eq AddressValueError); [| auto |].
    + intros hi Hhi. apply result_sat_bind.
      apply result_sat_weaken with
        (Q := fun lo => 0 <= lo <= len parts - k - 1)
        (P := eq AddressValueError); [| auto |].
      * intros lo Hlo.
        destruct (BaseV6._HEXTET_COUNT - (hi + lo) <? 1); [reflexivity|].
        cbn [result_sat]. lia.
      * destruct (truthy pl); cbn [negb]; [cbn [result_sat]; lia|].
        destruct (Z.eqb_spec (len parts - k - 1 - 1) 0); cbn [negb];
          [cbn [result_sat]; lia|reflexivity].
    + destruct (truthy p0); cbn [negb]; [cbn [result_sat]; lia|].
      destruct (Z.eqb_spec (k - 1) 0); cbn [negb];
        [cbn [result_sat]; lia|reflexivity].
  - destruct (len parts =? BaseV6._HEXTET_COUNT); [|reflexivity].
    cbn [negb]. rewrite Hp0. cbn [bind].
    destruct (truthy p0); [|reflexivity]. cbn [negb].
    rewrite Hpl. cbn [bind].
    destruct (truthy pl); [|reflexivity]. cbn [negb result_sat]. lia.
Qed.

Lemma split_scope_id_raises s :
  raises_only (eq AddressValueError) (BaseV6._split_scope_id s).
Proof.
  unfold BaseV6._split_scope_id.
  destruct (partition "%" s) as [[addr sep] scope].
  destruct (truthy sep); cbn [negb]; [|exact I].
  destruct (negb (truthy scope) || contains "%" scope);
    [reflexivity|exact I].
Qed.

Lemma IPv6Address_init_raises s :
  raises_only (eq AddressValueError) (IPv6Address_init s).
Proof.
  unfold IPv6Address_init.
  destruct (contains "/" s); [reflexivity|].
  apply raises_only_bind; [apply split_scope_id_raises|].
  intros [addr scope].
  apply raises_only_bind; [apply V6_ip_int_from_string_raises|].
  intros ip. exact I.
Qed.

Lemma ip_address_raises s : raises_only (eq ValueError) (ip_address s).
Proof.
  unfold ip_address.
  pose proof (IPv4Address_init_raises s) as H4.
  pose proof (IPv6Address_init_raises s) as H6.
  destruct (IPv4Address_init s) as [a|e]; [exact I|].
  cbn in H4. subst e. cbn [is_Address_or_Netmask_error].
  destruct (IPv6Address_init s) as [a|e]; [exact I|].
  cbn in H6. subst e. reflexivity.
Qed.

(** [validate_ip] always returns: an address or [None]. *)
Lemma validate_ip_total s : exists r, validate_ip s = Ok r.
Proof.
  unfold validate_ip.
  pose proof (ip_address_raises (strip s)) as H.
  destruct (ip_address (strip s)) as [a|e]; cbn in H |- *; [eauto|].
  subst e. cbn. eauto.
Qed.

(** [validate_ip] gives [None] exactly when [ip_address] raises on the
    trimmed string. *)
Lemma validate_ip_None s :
  validate_ip s = Ok None <-> exists e, ip_address (strip s) = Raise e.
Proof.
  unfold validate_ip.
  pose proof (ip_address_raises (strip s)) as H.
  destruct (ip_address (strip s)) as [a|e]; cbn in H |- *.
  - split; [discriminate|]. intros [e He]. discriminate.
  - subst e. cbn. split; eauto.
Qed.

(** ** The model of [ipaddress] on known values *)

(** The two equalities in the docstrings of the address classes. *)
Example ip_address_docstring_v4 :
  ip_address "192.0.2.1" = Ok (IPv4Address 3221225985).
Proof. vm_compute. reflexivity. Qed.

Example ip_address_docstring_v6 :
  ip_address "2001:db8::"
  = Ok (IPv6Address 42540766411282592856903984951653826560 None).
Proof. vm_compute. reflexivity. Qed.

Example ip_address_mapped_v4 :
  ip_address "::ffff:1.2.3.4" = ip_address "::ffff:102:304".
Proof. vm_compute. reflexivity. Qed.

(** The fuel of [format_x] is enough: the digits it writes read back
    as the number. *)
Lemma digit_value_hex_char d :
  0 <= d < 16 -> digit_value (hex_char d) = Some d.
Proof.
  intros Hd.
  assert (H : d = 0 \/ d = 1 \/ d = 2 \/ d = 3 \/ d = 4 \/ d = 5 \/ d = 6
              \/ d = 7 \/ d = 8 \/ d = 9 \/ d = 10 \/ d = 11 \/ d = 12
              \/ d = 13 \/ d = 14 \/ d = 15) by lia.
  repeat (destruct H as [->|H]; [reflexivity|]). subst d. reflexivity.
Qed.

Lemma format_x_pos_digits fuel :
  forall n acc a,
    (0 < fuel)%nat -> 0 <= n < 16 ^ Z.of_nat fuel ->
    exists k,
      0 <= k
      /\ int_digits 16 a (format_x_pos fuel n acc)
         = int_digits 16 (a * 16 ^ k + n) acc.
Proof.
  induction fuel as [|fuel IH]; intros n acc a Hfuel Hn; [lia|].
  cbn [format_x_pos].
  assert (Hmod : 0 <= n mod 16 < 16) by (apply Z.mod_pos_bound; lia).
  assert (Hstep : forall b,
    int_digits 16 b (String (hex_char (n mod 16)) acc)
    = int_digits 16 (b * 16 + n mod 16) acc).
  { intros b. cbn [int_digits]. rewrite (digit_value_hex_char _ Hmod).
    destruct (Z.ltb_spec (n mod 16) 16); [reflexivity|lia]. }
  pose proof (Z.div_mod n 16 ltac:(lia)) as Hdm.
  destruct (Z.eqb_spec (n / 16) 0) as [Hq|Hq].
  - exists 1. split; [lia|]. rewrite Hstep. f_equal. lia.
  - assert (Hq0 : 0 <= n / 16) by (apply Z.div_pos; lia).
    destruct fuel as [|fuel'].
    { change (16 ^ Z.of_nat 1) with 16 in Hn. lia. }
    destruct (IH (n / 16) (String (hex_char (n mod 16)) acc) a) as [k [Hk E]].
    + lia.
    + split; [exact Hq0|]. apply Z.div_lt_upper_bound; [lia|].
      replace (Z.of_nat (S (S fuel'))) with (Z.of_nat (S fuel') + 1) in Hn
        by lia.
      rewrite Z.pow_add_r in Hn by lia. lia.
    + exists (k + 1). split; [lia|]. rewrite E, Hstep. f_equal.
      rewrite Z.pow_add_r by lia. lia.
Qed.

Lemma format_x_pos_truthy fuel n acc :
  (0 < fuel)%nat -> truthy (format_x_pos fuel n acc) = true.
Proof.
  revert n acc. induction fuel as [|fuel IH]; intros n acc Hfuel; [lia|].
  cbn [format_x_pos]. destruct (n / 16 =? 0); [reflexivity|].
  destruct fuel as [|fuel']; [reflexivity|]. apply IH. lia.
Qed.

Lemma format_x_reads_back n : 0 <= n -> int (format_x n) 16 = Ok n.
Proof.
  intros Hn. unfold int, format_x.
  rewrite format_x_pos_truthy by lia.
  destruct (format_x_pos_digits (S (Z.to_nat (Z.log2 n))) n EmptyString 0)
    as [k [Hk E]].
  - lia.
  - split; [exact Hn|].
    rewrite Nat2Z.inj_succ, Z2Nat.id by apply Z.log2_nonneg.
    destruct (Z.eq_dec n 0) as [->|Hne]; [reflexivity|].
    pose proof (Z.log2_spec n ltac:(lia)) as [_ Hlt].
    eapply Z.lt_le_trans; [exact Hlt|].
    apply Z.pow_le_mono_l. lia.
  - rewrite E. reflexivity.
Qed.

(** ** Trimming *)

Lemma lstrip_lstripped s : lstripped (lstrip s).
Proof.
  induction s as [|c s IH]; simpl; [exact I|].
  destruct (isspace c) eqn:E; [exact IH|exact E].
Qed.

Lemma lstripped_lstrip s : lstripped s -> lstrip s = s.
Proof. destruct s as [|c s]; simpl; [reflexivity|]. intros ->. reflexivity. Qed.

Lemma rstrip_lstripped s : lstripped s -> lstripped (rstrip s).
Proof.
  destruct s as [|c s]; simpl; [auto|]. intros Hc.
  destruct (rstrip s); [rewrite Hc|]; exact Hc.
Qed.

Lemma rstrip_idem s : rstrip (rstrip s) = rstrip s.
Proof.
  induction s as [|c s IH]; simpl; [reflexivity|].
  destruct (rstrip s) as [|d r] eqn:E.
  - destruct (isspace c) eqn:Ec; simpl; [reflexivity|]. rewrite Ec. reflexivity.
  - simpl in IH |- *. destruct (rstrip r) as [|d' r'] eqn:Er.
    + destruct (isspace d); [discriminate|]. congruence.
    + congruence.
Qed.

Lemma strip_idem s : strip (strip s) = strip s.
Proof.
  unfold strip.
  rewrite (lstripped_lstrip (rstrip (lstrip s))).
  - apply rstrip_idem.
  - apply rstrip_lstripped, lstrip_lstripped.
Qed.

Lemma validate_ip_strip s : validate_ip (strip s) = validate_ip s.
Proof. unfold validate_ip. rewrite strip_idem. reflexivity. Qed.

(** ** What the validator rejects *)

Lemma forallb_contains P s c :
  forallb P (list_ascii_of_string s) = true -> P c = false ->
  contains c s = false.
Proof.
  intros Hall Hc. induction s as [|d s IH]; simpl in *; [reflexivity|].
  apply andb_prop in Hall as [Hd Hs]. rewrite (IH Hs), orb_false_r.
  destruct (Ascii.eqb_spec d c) as [->|]; [congruence|reflexivity].
Qed.

Lemma forallb_weaken {A} (P Q : A -> bool) (l : list A) :
  (forall x, P x = true -> Q x = true) ->
  forallb P l = true -> forallb Q l = true.
Proof.
  intros HPQ. induction l as [|x l IH]; simpl; [auto|].
  intros H. apply andb_prop in H as [Hx Hl].
  rewrite (HPQ x Hx), (IH Hl). reflexivity.
Qed.

Lemma strip_no_space s :
  forallb (fun c => negb (isspace c)) (list_ascii_of_string s) = true ->
  strip s = s.
Proof.
  intros H. unfold strip.
  assert (Hl : lstrip s = s).
  { destruct s as [|c s]; [reflexivity|]. simpl in H |- *.
    apply andb_prop in H as [Hc _]. apply negb_true_iff in Hc.
    rewrite Hc. reflexivity. }
  rewrite Hl. induction s as [|c s IH]; simpl in *; [reflexivity|].
  apply andb_prop in H as [Hc Hs]. apply negb_true_iff in Hc.
  rewrite IH; [|exact Hs|].
  - destruct s; [rewrite Hc|]; reflexivity.
  - destruct s as [|d s]; [reflexivity|]. simpl in Hs |- *.
    apply andb_prop in Hs as [Hd _]. apply negb_true_iff in Hd.
    rewrite Hd. reflexivity.
Qed.

Lemma split_no_sep sep s : contains sep s = false -> split sep s = [s].
Proof.
  induction s as [|c s IH]; simpl; [reflexivity|].
  intros H. apply orb_false_iff in H as [Hc Hs].
  rewrite Hc, (IH Hs). reflexivity.
Qed.

Lemma split_app_sep sep x r :
  contains sep x = false ->
  split sep (x ++ String sep r)%string = x :: split sep r.
Proof.
  induction x as [|c x IH]; simpl.
  - intros _. rewrite Ascii.eqb_refl. reflexivity.
  - intros H. apply orb_false_iff in H as [Hc Hx].
    rewrite Hc, (IH Hx). reflexivity.
Qed.

Lemma split_join sep l :
  l <> [] -> forallb (fun o => negb (contains sep o)) l = true ->
  split sep (join sep l) = l.
Proof.
  induction l as [|x l IH]; [congruence|]. intros _ H.
  simpl in H. apply andb_prop in H as [Hx Hl]. apply negb_true_iff in Hx.
  destruct l as [|y l]; [apply split_no_sep, Hx|].
  change (join sep (x :: y :: l))
    with (x ++ String sep (join sep (y :: l)))%string.
  rewrite (split_app_sep _ _ _ Hx), IH; [reflexivity|discriminate|exact Hl].
Qed.

Lemma forallb_chars_app P a b :
  forallb P (list_ascii_of_string (a ++ b)%string)
  = forallb P (list_ascii_of_string a) && forallb P (list_ascii_of_string b).
Proof.
  induction a as [|c a IH]; simpl; [reflexivity|].
  rewrite IH, andb_assoc. reflexivity.
Qed.

Lemma forallb_chars_join P sep l :
  P sep = true ->
  forallb (fun o => forallb P (list_ascii_of_string o)) l = true ->
  forallb P (list_ascii_of_string (join sep l)) = true.
Proof.
  intros Hsep. induction l as [|x l IH]; [reflexivity|].
  intros H. simpl in H. apply andb_prop in H as [Hx Hl].
  destruct l as [|y l]; [exact Hx|].
  change (join sep (x :: y :: l))
    with (x ++ String sep (join sep (y :: l)))%string.
  rewrite forallb_chars_app, Hx. cbn [andb].
  change (forallb P (sep :: list_ascii_of_string (join sep (y :: l))) = true).
  cbn [forallb]. rewrite Hsep, (IH Hl). reflexivity.
Qed.

(** Without a colon there is no IPv6 address. *)
Lemma partition_prefix_contains c sep s :
  contains c s = false -> contains c (partition sep s).1.1 = false.
Proof.
  induction s as [|d s IH]; simpl; [reflexivity|].
  intros H. apply orb_false_iff in H as [Hd Hs].
  destruct (Ascii.eqb d sep); [reflexivity|].
  specialize (IH Hs). destruct (partition sep s) as [[a m] b].
  simpl in *. rewrite Hd, IH. reflexivity.
Qed.

Lemma IPv6Address_init_no_colon s :
  contains ":" s = false -> IPv6Address_init s = Raise AddressValueError.
Proof.
  intros H. pose proof (IPv6Address_init_raises s) as Hr.
  assert (Hraise : exists e, IPv6Address_init s = Raise e).
  { unfold IPv6Address_init.
    destruct (contains "/" s); [eauto|].
    unfold BaseV6._split_scope_id.
    pose proof (partition_prefix_contains ":" "%" s H) as Ha.
    destruct (partition "%" s) as [[addr sep] scope]. simpl in Ha.
    assert (Haddr : BaseV6._ip_int_from_string addr = Raise AddressValueError).
    { unfold BaseV6._ip_int_from_string.
      destruct (truthy addr); [|reflexivity].
      rewrite (split_no_sep _ _ Ha). reflexivity. }
    destruct (truthy sep); cbn [negb].
    - destruct (negb (truthy scope) || contains "%" scope); [cbn; eauto|].
      cbn [bind]. rewrite Haddr. cbn. eauto.
    - cbn [bind]. rewrite Haddr. cbn. eauto. }
  destruct Hraise as [e He]. rewrite He in Hr |- *. cbn in Hr. congruence.
Qed.

(** One octet that does not parse is enough to have no IPv4 address. *)
Lemma mapM_raises_exists {A B} (f : A -> result B) (l : list A) :
  Exists (fun x => exists e, f x = Raise e) l ->
  exists e, mapM f l = Raise e.
Proof.
  induction 1 as [x l [e He]|x l _ [e IH]]; simpl.
  - rewrite He. cbn. eauto.
  - destruct (f x); cbn; [rewrite IH; cbn|]; eauto.
Qed.

Lemma IPv4Address_init_bad_octet s :
  Exists (fun o => exists e, BaseV4._parse_octet o = Raise e) (split "." s) ->
  IPv4Address_init s = Raise AddressValueError.
Proof.
  intros H. pose proof (IPv4Address_init_raises s) as Hr.
  assert (Hraise : exists e, IPv4Address_init s = Raise e).
  { unfold IPv4Address_init. destruct (contains "/" s); [eauto|].
    unfold BaseV4._ip_int_from_string.
    destruct (truthy s); [|cbn; eauto]. cbn [negb].
    destruct (len (split "." s) =? 4); [|cbn; eauto]. cbn [negb].
    destruct (mapM_raises_exists _ _ H) as [e He]. rewrite He.
    pose proof (mapM_raises_only BaseV4._parse_octet (eq ValueError)
                  (split "." s) parse_octet_raises) as Hm.
    rewrite He in Hm. cbn in Hm. subst e. cbn. eauto. }
  destruct Hraise as [e He]. rewrite He in Hr |- *. cbn in Hr. congruence.
Qed.

Lemma validate_ip_neither s :
  IPv4Address_init (strip s) = Raise AddressValueError ->
  IPv6Address_init (strip s) = Raise AddressValueError ->
  validate_ip s = Ok None.
Proof.
  intros H4 H6. unfold validate_ip, ip_address. rewrite H4. cbn.
  rewrite H6. reflexivity.
Qed.

Lemma parse_octet_not_digits o :
  forallb is_ascii_digit (list_ascii_of_string o) = false ->
  BaseV4._parse_octet o = Raise ValueError.
Proof.
  intros H. unfold BaseV4._parse_octet, isascii_isdigit.
  destruct o as [|c o]; [discriminate|]. cbn [truthy negb andb].
  rewrite H. reflexivity.
Qed.

Lemma split_not_nil sep s : split sep s <> [].
Proof.
  destruct s as [|c s]; cbn [split]; [discriminate|].
  destruct (Ascii.eqb c sep); [discriminate|].
  destruct (split sep s); discriminate.
Qed.

Lemma split_bad_char s :
  existsb (fun c => negb (dotted_char c)) (list_ascii_of_string s) = true ->
  Exists (fun o => forallb is_ascii_digit (list_ascii_of_string o) = false)
    (split "." s).
Proof.
  induction s as [|c s IH]; cbn [split list_ascii_of_string existsb];
    [discriminate|].
  unfold dotted_char at 1.
  pose proof (split_not_nil "." s) as Hne.
  destruct (Ascii.eqb c ".") eqn:Edot.
  - rewrite orb_true_r. cbn [negb orb]. intros H.
    apply Exists_cons_tl, IH, H.
  - rewrite orb_false_r. intros H.
    destruct (is_ascii_digit c) eqn:Ec; cbn [negb orb] in H.
    + specialize (IH H). destruct (split "." s) as [|h t]; [congruence|].
      inversion IH as [? ? Hh|? ? Ht]; subst.
      * apply Exists_cons_hd. cbn [list_ascii_of_string forallb].
        rewrite Hh. apply andb_false_r.
      * apply Exists_cons_tl, Ht.
    + destruct (split "." s) as [|h t]; [congruence|].
      apply Exists_cons_hd. cbn [list_ascii_of_string forallb].
      rewrite Ec. reflexivity.
Qed.

Lemma reject_foreign_char s :
  contains ":" (strip s) = false ->
  existsb (fun c => negb (dotted_char c)) (list_ascii_of_string (strip s))
  = true ->
  validate_ip s = Ok None.
Proof.
  intros Hcolon Hbad. apply validate_ip_neither.
  - apply IPv4Address_init_bad_octet.
    eapply Exists_impl; [apply split_bad_char, Hbad|].
    intros o Ho. rewrite (parse_octet_not_digits o Ho). eauto.
  - apply IPv6Address_init_no_colon, Hcolon.
Qed.

Lemma hostname_char_no_space c :
  is_letter c || is_ascii_digit c || Ascii.eqb c "-" || Ascii.eqb c "."
  = true ->
  negb (isspace c) = true.
Proof. by_cases_on_char c. Qed.

Lemma letter_not_dotted c : is_letter c = true -> negb (dotted_char c) = true.
Proof. by_cases_on_char c. Qed.

Lemma dotted_char_no_space c : dotted_char c = true -> negb (isspace c) = true.
Proof. by_cases_on_char c. Qed.

Lemma digit_dotted c : is_ascii_digit c = true -> dotted_char c = true.
Proof. unfold dotted_char. intros ->. reflexivity. Qed.

Lemma existsb_weaken {A} (P Q : A -> bool) (l : list A) :
  (forall x, P x = true -> Q x = true) ->
  existsb P l = true -> existsb Q l = true.
Proof.
  intros HPQ H. apply existsb_exists in H as [x [Hin Hx]].
  apply existsb_exists. exists x. auto.
Qed.

(** Host names are rejected. *)
Lemma reject_hostname s : hostname s = true -> validate_ip s = Ok None.
Proof.
  unfold hostname. intros H. apply andb_prop in H as [Hall Hex].
  assert (Hs : strip s = s).
  { apply strip_no_space.
    eapply forallb_weaken; [|exact Hall]. apply hostname_char_no_space. }
  apply reject_foreign_char; rewrite Hs.
  - eapply forallb_contains; [exact Hall|]. reflexivity.
  - eapply existsb_weaken; [|exact Hex]. apply letter_not_dotted.
Qed.

Lemma parse_octet_large o v :
  int o 10 = Ok v -> 255 < v -> exists e, BaseV4._parse_octet o = Raise e.
Proof.
  intros Hint Hv. unfold BaseV4._parse_octet.
  destruct (negb (truthy o)); [eauto|].
  destruct (negb (isascii_isdigit o)); [eauto|].
  destruct (3 <? len_str o); [eauto|].
  match goal with
  | |- context [bind ?r _] => destruct r as [lz|e]; cbn [bind]; [|eauto]
  end.
  destruct lz; [eauto|]. rewrite Hint. cbn [bind].
  destruct (Z.ltb_spec 255 v); [eauto|lia].
Qed.

(** Decimal octets joined by dots are rejected when one of them is above
    255. *)
Lemma reject_large_octet octets :
  forallb isascii_isdigit octets = true ->
  existsb octet_above_255 octets = true ->
  validate_ip (join "." octets) = Ok None.
Proof.
  intros Hdig Hbig.
  assert (Hdigits :
    forallb (fun o => forallb is_ascii_digit (list_ascii_of_string o)) octets
    = true).
  { eapply forallb_weaken; [|exact Hdig].
    intros o Ho. unfold isascii_isdigit in Ho.
    apply andb_prop in Ho as [_ Ho]. exact Ho. }
  assert (Hne : octets <> []) by (destruct octets; [discriminate|congruence]).
  assert (Hchars :
    forallb dotted_char (list_ascii_of_string (join "." octets)) = true).
  { apply forallb_chars_join; [reflexivity|].
    eapply forallb_weaken; [|exact Hdigits].
    intros o Ho. eapply forallb_weaken; [|exact Ho]. apply digit_dotted. }
  assert (Hs : strip (join "." octets) = join "." octets).
  { apply strip_no_space.
    eapply forallb_weaken; [|exact Hchars]. apply dotted_char_no_space. }
  apply validate_ip_neither; rewrite Hs.
  - apply IPv4Address_init_bad_octet.
    rewrite split_join; [|exact Hne|].
    + apply existsb_exists in Hbig as [o [Hin Ho]].
      apply List.Exists_exists. exists o. split; [exact Hin|].
      unfold octet_above_255 in Ho.
      destruct (int o 10) as [v|] eqn:Ev; [|discriminate].
      apply (parse_octet_large o v Ev). apply Z.ltb_lt, Ho.
    + eapply forallb_weaken; [|exact Hdigits].
      intros o Ho. apply negb_true_iff.
      eapply forallb_contains; [exact Ho|]. reflexivity.
  - apply IPv6Address_init_no_colon.
    eapply forallb_contains; [exact Hchars|]. reflexivity.
Qed.

(** ** The resolver *)

Lemma validate_ip_truth s r : validate_ip s = Ok r -> truth r = valid s.
Proof. unfold valid. intros ->. destruct r; reflexivity. Qed.

Lemma valid_false s : valid s = false <-> validate_ip s = Ok None.
Proof.
  unfold valid. destruct (validate_ip_total s) as [r ->].
  destruct r; split; congruence.
Qed.

Lemma valid_strip s : valid (strip s) = valid s.
Proof. unfold valid. rewrite validate_ip_strip. reflexivity. Qed.

Lemma valid_unknown : valid "unknown" = false.
Proof. vm_compute. reflexivity. Qed.

Lemma valid_not_unknown s : valid s = true -> String.eqb s "unknown" = false.
Proof.
  intros H. destruct (String.eqb_spec s "unknown") as [->|]; [|reflexivity].
  rewrite valid_unknown in H. discriminate.
Qed.

Lemma scan_proxies_find trusted l d :
  scan_proxies trusted l d =
  Ok (match find (candidate_ok trusted) l with
      | Some ip => ip
      | None => d
      end).
Proof.
  induction l as [|ip l IH]; simpl; [reflexivity|].
  destruct (validate_ip_total ip) as [r Hr]. rewrite Hr. cbn [bind].
  unfold candidate_ok at 1. rewrite (validate_ip_truth _ _ Hr).
  destruct (valid ip && negb (bool_decide (ip ∈ trusted)));
    [reflexivity|exact IH].
Qed.

Lemma find_candidate_valid trusted l ip :
  find (candidate_ok trusted) l = Some ip ->
  In ip l /\ valid ip = true /\ ip ∉ trusted.
Proof.
  intros H. apply find_some in H as [Hin Hok].
  unfold candidate_ok in Hok. apply andb_prop in Hok as [Hv Ht].
  repeat split; [exact Hin|exact Hv|].
  apply negb_true_iff, bool_decide_eq_false in Ht. exact Ht.
Qed.

(** The resolver as the priority chain of its three steps. *)
Lemma get_real_client_ip_steps ctx :
  get_real_client_ip ctx =
  Ok (match xff_step ctx with
      | Some ip => ip
      | None =>
          match xri_step ctx with
          | Some xri => xri
          | None => peer_or_unknown ctx
          end
      end).
Proof.
  unfold get_real_client_ip, xff_step, xri_step, peer_or_unknown,
    forwarding_chain.
  destruct (headers (request ctx) !! "X-Forwarded-For") as [xff|].
  - rewrite scan_proxies_find.
    destruct (find _ _) as [ip|] eqn:E.
    + apply find_candidate_valid in E as (_ & Hv & _).
      cbn [bind]. rewrite (valid_not_unknown _ Hv). cbn [bind].
      rewrite (valid_not_unknown _ Hv). reflexivity.
    + cbn [bind]. change (String.eqb "unknown" "unknown") with true. cbv iota.
      destruct (headers (request ctx) !! "X-Real-IP") as [xri|];
        [|reflexivity].
      destruct (validate_ip_total xri) as [r Hr]. rewrite Hr. cbn [bind].
      rewrite (validate_ip_truth _ _ Hr).
      destruct (valid xri) eqn:Hv; cbn [bind]; [|reflexivity].
      rewrite (valid_not_unknown _ Hv). reflexivity.
  - cbn [bind]. change (String.eqb "unknown" "unknown") with true. cbv iota.
    destruct (headers (request ctx) !! "X-Real-IP") as [xri|];
      [|reflexivity].
    destruct (validate_ip_total xri) as [r Hr]. rewrite Hr. cbn [bind].
    rewrite (validate_ip_truth _ _ Hr).
    destruct (valid xri) eqn:Hv; cbn [bind]; [|reflexivity].
    rewrite (valid_not_unknown _ Hv). reflexivity.
Qed.

Lemma find_app_skip {A} (f : A -> bool) (l1 l2 : list A) :
  forallb (fun y => negb (f y)) l1 = true ->
  find f (l1 ++ l2) = find f l2.
Proof.
  induction l1 as [|y l1 IH]; simpl; [reflexivity|].
  intros H. apply andb_prop in H as [Hy Hl].
  apply negb_true_iff in Hy. rewrite Hy. exact (IH Hl).
Qed.

Lemma forallb_rev {A} (f : A -> bool) (l : list A) :
  forallb f (rev l) = forallb f l.
Proof.
  induction l as [|x l IH]; simpl; [reflexivity|].
  rewrite forallb_app, IH. simpl. rewrite andb_true_r. apply andb_comm.
Qed.

(** Scanning from the right finds the last acceptable element. *)
Lemma find_rev_rightmost {A} (f : A -> bool) (before after : list A) x :
  f x = true ->
  forallb (fun y => negb (f y)) after = true ->
  find f (rev (before ++ x :: after)) = Some x.
Proof.
  intros Hx Hafter.
  rewrite rev_app_distr. simpl. rewrite <- app_assoc.
  rewrite find_app_skip by (rewrite forallb_rev; exact Hafter).
  simpl. rewrite Hx. reflexivity.
Qed.

Lemma find_rev_none {A} (f : A -> bool) (l : list A) :
  forallb (fun y => negb (f y)) l = true -> find f (rev l) = None.
Proof.
  intros H. rewrite <- (app_nil_r (rev l)).
  rewrite find_app_skip by (rewrite forallb_rev; exact H). reflexivity.
Qed.

Lemma forallb_map_compose {A B} (g : A -> B) (f : B -> bool) (l : list A) :
  forallb f (map g l) = forallb (fun x => f (g x)) l.
Proof. induction l as [|x l IH]; simpl; [reflexivity|]. rewrite IH. reflexivity. Qed.

Lemma find_none_forallb {A} (f : A -> bool) (l : list A) :
  find f l = None -> forallb (fun y => negb (f y)) l = true.
Proof.
  induction l as [|x l IH]; simpl; [reflexivity|].
  destruct (f x); [discriminate|]. exact IH.
Qed.

Lemma xff_step_rightmost ctx xff before ip after :
  headers (request ctx) !! "X-Forwarded-For" = Some xff ->
  forwarding_chain xff = before ++ ip :: after ->
  candidate_ok (TRUSTED_PROXIES (app_config ctx)) ip = true ->
  forallb (fun x => negb (candidate_ok (TRUSTED_PROXIES (app_config ctx)) x))
    after = true ->
  xff_step ctx = Some ip.
Proof.
  intros Hxff Hchain Hip Hafter. unfold xff_step.
  rewrite Hxff, Hchain. apply find_rev_rightmost; assumption.
Qed.

Lemma xff_step_none ctx xff :
  headers (request ctx) !! "X-Forwarded-For" = Some xff ->
  forallb (fun x => negb (candidate_ok (TRUSTED_PROXIES (app_config ctx)) x))
    (forwarding_chain xff) = true ->
  xff_step ctx = None.
Proof.
  intros Hxff Hall. unfold xff_step. rewrite Hxff.
  apply find_rev_none, Hall.
Qed.

Lemma candidate_ok_intro trusted ip :
  valid ip = true -> ip ∉ trusted -> candidate_ok trusted ip = true.
Proof.
  intros Hv Ht. unfold candidate_ok. rewrite Hv.
  rewrite (bool_decide_eq_false_2 _ Ht). reflexivity.
Qed.

(** ** The claims *)

(** C1. When [X-Forwarded-For] is present, its value is split on commas
    and every element trimmed.  Scanning from the right, the first
    candidate that validates and is not in the trusted set is returned:
    if the chain is [before ++ ip :: after], [ip] is acceptable and no
    element of [after] is, the resolver returns [ip].  If no element of
    the chain is acceptable, step 1 yields nothing and the result is that
    of the [X-Real-IP] step (and, after it, the peer address). *)
Theorem xff_scan_right_to_left ctx xff :
  headers (request ctx) !! "X-Forwarded-For" = Some xff ->
  let trusted := TRUSTED_PROXIES (app_config ctx) in
  let chain := map strip (split "," xff) in
  (forall before ip after,
     chain = before ++ ip :: after ->
     valid ip && negb (bool_decide (ip ∈ trusted)) = true ->
     forallb (fun x => negb (valid x && negb (bool_decide (x ∈ trusted))))
       after = true ->
     get_real_client_ip ctx = Ok ip)
  /\ (forallb (fun x => negb (valid x && negb (bool_decide (x ∈ trusted))))
        chain = true ->
      get_real_client_ip ctx =
      Ok (match headers (request ctx) !! "X-Real-IP" with
          | Some xri => if valid xri then xri else peer_or_unknown ctx
          | None => peer_or_unknown ctx
          end)).
Proof.
  intros Hxff trusted chain. split.
  - intros before ip after Hchain Hip Hafter.
    rewrite get_real_client_ip_steps.
    rewrite (xff_step_rightmost ctx xff before ip after); auto.
  - intros Hall. rewrite get_real_client_ip_steps.
    rewrite (xff_step_none ctx xff) by assumption.
    unfold xri_step.
    destruct (headers (request ctx) !! "X-Real-IP") as [xri|]; [|reflexivity].
    destruct (valid xri); reflexivity.
Qed.

Lemma xff_scan_right_to_left_witness :
  get_real_client_ip
    (test_context
       [("X-Forwarded-For", "10.0.0.1, 203.0.113.5, 127.0.0.1")] None)
  = Ok "203.0.113.5"
  /\ get_real_client_ip
       (test_context
          [("X-Forwarded-For", "127.0.0.1, bogus, ::1"); ("X-Real-IP", "192.0.2.9")]
          None)
     = Ok "192.0.2.9".
Proof.
  split.
  - apply (proj1 (xff_scan_right_to_left
                    (test_context
                       [("X-Forwarded-For", "10.0.0.1, 203.0.113.5, 127.0.0.1")]
                       None)
                    "10.0.0.1, 203.0.113.5, 127.0.0.1" eq_refl)
             ["10.0.0.1"] "203.0.113.5" ["127.0.0.1"]);
      vm_compute; reflexivity.
  - apply (proj2 (xff_scan_right_to_left
                    (test_context
                       [("X-Forwarded-For", "127.0.0.1, bogus, ::1");
                        ("X-Real-IP", "192.0.2.9")] None)
                    "127.0.0.1, bogus, ::1" eq_refl)).
    vm_compute. reflexivity.
Defined.

(** C2, as the code has it.  The resolver always returns a string, and
    that string is a valid, non-trusted entry of the forwarding chain, or
    the [X-Real-IP] value (which validates), or the non-empty peer
    address, or ["unknown"].  Only the first of the four is checked
    against the trusted set. *)
Theorem result_origin ctx :
  exists r,
    get_real_client_ip ctx = Ok r
    /\ ((exists xff,
           headers (request ctx) !! "X-Forwarded-For" = Some xff
           /\ In r (map strip (split "," xff))
           /\ valid r = true
           /\ r ∉ TRUSTED_PROXIES (app_config ctx))
        \/ (headers (request ctx) !! "X-Real-IP" = Some r /\ valid r = true)
        \/ (remote_addr (request ctx) = Some r /\ r <> "")
        \/ r = "unknown").
Proof.
  rewrite get_real_client_ip_steps. eexists. split; [reflexivity|].
  unfold xff_step, xri_step.
  assert (Hpeer :
    (remote_addr (request ctx) = Some (peer_or_unknown ctx)
     /\ peer_or_unknown ctx <> "")
    \/ peer_or_unknown ctx = "unknown").
  { unfold peer_or_unknown.
    destruct (remote_addr (request ctx)) as [a|]; [|auto].
    destruct a; cbn [truthy]; [auto|].
    left. split; [reflexivity|discriminate]. }
  destruct (headers (request ctx) !! "X-Forwarded-For") as [xff|] eqn:Hxff.
  - destruct (find _ _) as [ip|] eqn:E.
    + left. exists xff. apply find_candidate_valid in E as (Hin & Hv & Ht).
      apply in_rev in Hin. auto.
    + right.
      destruct (headers (request ctx) !! "X-Real-IP") as [xri|]; [|auto].
      destruct (valid xri) eqn:Hv; auto.
  - right.
    destruct (headers (request ctx) !! "X-Real-IP") as [xri|]; [|auto].
    destruct (valid xri) eqn:Hv; auto.
Qed.

(** C2 as stated fails: with no forwarding headers the peer address is
    returned as it is, also when it is a trusted proxy. *)
Lemma trusted_peer_returned :
  get_real_client_ip (test_context [] (Some "127.0.0.1")) = Ok "127.0.0.1"
  /\ "127.0.0.1" ∈ TRUSTED_PROXIES
                     (app_config (test_context [] (Some "127.0.0.1"))).
Proof.
  split; [vm_compute; reflexivity|].
  apply (proj1 (bool_decide_eq_true _)). vm_compute. reflexivity.
Qed.

(** C3, as the code has it.  The resolver returns ["unknown"] only when
    nothing usable is found: [X-Forwarded-For] is absent or every entry
    of its chain is invalid or trusted, [X-Real-IP] is absent or does not
    validate, and the peer address is absent, empty or the string
    ["unknown"] itself. *)
Theorem unknown_only_when_nothing_usable ctx :
  get_real_client_ip ctx = Ok "unknown" ->
  match headers (request ctx) !! "X-Forwarded-For" with
  | Some xff =>
      forall x, In x (map strip (split "," xff)) ->
                valid x = false \/ x ∈ TRUSTED_PROXIES (app_config ctx)
  | None => True
  end
  /\ match headers (request ctx) !! "X-Real-IP" with
     | Some xri => valid xri = false
     | None => True
     end
  /\ (remote_addr (request ctx) = None
      \/ remote_addr (request ctx) = Some ""
      \/ remote_addr (request ctx) = Some "unknown").
Proof.
  rewrite get_real_client_ip_steps.
  unfold xff_step, xri_step, peer_or_unknown, forwarding_chain.
  intros H.
  assert (Hxff :
    match headers (request ctx) !! "X-Forwarded-For" with
    | Some xff =>
        find (candidate_ok (TRUSTED_PROXIES (app_config ctx)))
          (rev (map strip (split "," xff))) = None
    | None => True
    end).
  { destruct (headers (request ctx) !! "X-Forwarded-For"); [|exact I].
    destruct (find _ _) as [ip|] eqn:E; [|reflexivity].
    apply find_candidate_valid in E as (_ & Hv & _).
    injection H as ->. rewrite valid_unknown in Hv. discriminate. }
  assert (Hrest :
    Ok (match headers (request ctx) !! "X-Real-IP" with
        | Some xri => if valid xri then xri else peer_or_unknown ctx
        | None => peer_or_unknown ctx
        end) = Ok "unknown").
  { rewrite <- H. unfold peer_or_unknown.
    destruct (headers (request ctx) !! "X-Forwarded-For");
      [rewrite Hxff|];
      (destruct (headers (request ctx) !! "X-Real-IP") as [xri|];
       [destruct (valid xri)|]; reflexivity). }
  clear H. split; [|split].
  - destruct (headers (request ctx) !! "X-Forwarded-For") as [xff|];
      [|exact I].
    intros x Hx. apply in_rev in Hx.
    pose proof (find_none _ _ Hxff x Hx) as Hc. unfold candidate_ok in Hc.
    apply andb_false_iff in Hc as [Hc|Hc]; [left; exact Hc|right].
    apply negb_false_iff, bool_decide_eq_true in Hc. exact Hc.
  - destruct (headers (request ctx) !! "X-Real-IP") as [xri|]; [|exact I].
    destruct (valid xri) eqn:Hv; [|reflexivity].
    injection Hrest as ->. rewrite valid_unknown in Hv. discriminate.
  - assert (Hp : peer_or_unknown ctx = "unknown").
    { destruct (headers (request ctx) !! "X-Real-IP") as [xri|];
        [|congruence].
      destruct (valid xri) eqn:Hv; [|congruence].
      injection Hrest as ->. rewrite valid_unknown in Hv. discriminate. }
    unfold peer_or_unknown in Hp.
    destruct (remote_addr (request ctx)) as [a|]; [|auto].
    destruct a as [|c a]; [auto|]. cbn [truthy] in Hp. rewrite Hp. auto.
Qed.

Lemma unknown_only_when_nothing_usable_witness :
  valid "not-an-ip" = false.
Proof.
  exact (proj1 (proj2 (unknown_only_when_nothing_usable
                         (test_context [("X-Real-IP", "not-an-ip")] None)
                         ltac:(vm_compute; reflexivity)))).
Defined.

(** C3 as stated fails: the spec's own scenario has an [X-Real-IP] header
    (one that does not validate) and the result is ["unknown"]. *)
Lemma unknown_with_header_present :
  get_real_client_ip (test_context [("X-Real-IP", "not-an-ip")] None)
  = Ok "unknown"
  /\ headers (request (test_context [("X-Real-IP", "not-an-ip")] None))
       !! "X-Real-IP" = Some "not-an-ip".
Proof. split; vm_compute; reflexivity. Qed.

(** C4.  For every string the validator returns, and never raises: the
    result is an address or [None].  It works on the trimmed string: the
    IPv4 address when the IPv4 constructor accepts it, else the IPv6
    address when the IPv6 constructor accepts it, else [None].  The empty
    string, host names and dotted quads of decimal octets with an octet
    above 255 all give [None]. *)
Theorem validate_ip_reports_invalid :
  (forall s, exists r, validate_ip s = Ok r)
  /\ (forall s, validate_ip s = validate_ip (strip s))
  /\ (forall s,
        validate_ip s =
        match IPv4Address_init (strip s) with
        | Ok a => Ok (Some a)
        | Raise _ =>
            match IPv6Address_init (strip s) with
            | Ok a => Ok (Some a)
            | Raise _ => Ok None
            end
        end)
  /\ validate_ip "" = Ok None
  /\ (forall s, hostname s = true -> validate_ip s = Ok None)
  /\ (forall a b c d,
        forallb isascii_isdigit [a; b; c; d] = true ->
        existsb octet_above_255 [a; b; c; d] = true ->
        validate_ip (join "." [a; b; c; d]) = Ok None).
Proof.
  split; [exact validate_ip_total|].
  split; [intros s; symmetry; apply validate_ip_strip|].
  split.
  { intros s. unfold validate_ip, ip_address.
    pose proof (IPv4Address_init_raises (strip s)) as H4.
    pose proof (IPv6Address_init_raises (strip s)) as H6.
    destruct (IPv4Address_init (strip s)) as [a|e]; [reflexivity|].
    cbn in H4. subst e. cbn [is_Address_or_Netmask_error].
    destruct (IPv6Address_init (strip s)) as [a|e]; [reflexivity|].
    cbn in H6. subst e. reflexivity. }
  split; [vm_compute; reflexivity|].
  split; [exact reject_hostname|].
  intros a b c d. apply reject_large_octet.
Qed.

Lemma validate_ip_reports_invalid_witness :
  validate_ip "api.example.com" = Ok None
  /\ validate_ip "192.168.1.256" = Ok None.
Proof.
  split.
  - apply (proj1 (proj2 (proj2 (proj2 (proj2 validate_ip_reports_invalid))))
             "api.example.com").
    vm_compute. reflexivity.
  - apply (proj2 (proj2 (proj2 (proj2 (proj2 validate_ip_reports_invalid))))
             "192" "168" "1" "256"); vm_compute; reflexivity.
Defined.

(** C5. When the rightmost trimmed entry of the chain is a valid IP that
    is not in the trusted set, the resolver returns exactly that entry,
    whatever the earlier entries are. *)
Theorem rightmost_entry_returned ctx xff e :
  headers (request ctx) !! "X-Forwarded-For" = Some xff ->
  last (map strip (split "," xff)) = Some e ->
  valid e = true ->
  e ∉ TRUSTED_PROXIES (app_config ctx) ->
  get_real_client_ip ctx = Ok e.
Proof.
  intros Hxff Hlast Hv Ht.
  rewrite get_real_client_ip_steps.
  apply last_Some in Hlast as [before Hchain].
  rewrite (xff_step_rightmost ctx xff before e []); auto.
  apply candidate_ok_intro; assumption.
Qed.

Lemma rightmost_entry_returned_witness :
  get_real_client_ip
    (test_context [("X-Forwarded-For", "not an ip, 127.0.0.1,198.51.100.20 ")]
       (Some "10.1.1.1"))
  = Ok "198.51.100.20".
Proof.
  apply (rightmost_entry_returned _ "not an ip, 127.0.0.1,198.51.100.20 ").
  - vm_compute. reflexivity.
  - vm_compute. reflexivity.
  - vm_compute. reflexivity.
  - apply (proj1 (bool_decide_eq_false _)). vm_compute. reflexivity.
Defined.

(** C6, as the code has it.  When neither the [X-Forwarded-For] step nor
    the [X-Real-IP] step yields a result, the resolver returns the peer
    address if it is present and non-empty, and ["unknown"] if it is
    absent or empty; the result is ["unknown"] only when the peer address
    is absent, empty or the string ["unknown"] itself. *)
Theorem peer_address_fallback ctx :
  xff_step ctx = None ->
  xri_step ctx = None ->
  (forall a, remote_addr (request ctx) = Some a -> a <> "" ->
             get_real_client_ip ctx = Ok a)
  /\ (remote_addr (request ctx) = None \/ remote_addr (request ctx) = Some "" ->
      get_real_client_ip ctx = Ok "unknown")
  /\ (get_real_client_ip ctx = Ok "unknown" ->
      remote_addr (request ctx) = None
      \/ remote_addr (request ctx) = Some ""
      \/ remote_addr (request ctx) = Some "unknown").
Proof.
  intros Hxff Hxri. rewrite get_real_client_ip_steps, Hxff, Hxri.
  unfold peer_or_unknown. split; [|split].
  - intros a -> Ha. destruct a; [contradiction|reflexivity].
  - intros [->| ->]; reflexivity.
  - destruct (remote_addr (request ctx)) as [a|]; [|auto].
    destruct a as [|c a]; [auto|]. cbn [truthy]. intros H.
    right. right. congruence.
Qed.

(** The scenario of C6: no headers, peer address ["198.51.100.7"]. *)
Lemma peer_address_fallback_witness :
  get_real_client_ip (test_context [] (Some "198.51.100.7"))
  = Ok "198.51.100.7".
Proof.
  apply (proj1 (peer_address_fallback
                  (test_context [] (Some "198.51.100.7")) eq_refl eq_refl)
           "198.51.100.7" eq_refl).
  discriminate.
Defined.

(** C6 as stated fails in its last sentence: a peer address that is the
    text ["unknown"] is present and non-empty, and the result is
    ["unknown"].  The proxy middleware configured in [main.py] takes the
    fifth entry from the right of [X-Forwarded-For] as the peer address
    without validating it, which gives this request. *)
Lemma unknown_with_peer_present :
  xff_step (test_context [("X-Forwarded-For", "unknown, a, b, c, d")]
              (Some "unknown")) = None
  /\ xri_step (test_context [("X-Forwarded-For", "unknown, a, b, c, d")]
                 (Some "unknown")) = None
  /\ get_real_client_ip
       (test_context [("X-Forwarded-For", "unknown, a, b, c, d")]
          (Some "unknown")) = Ok "unknown"
  /\ ~ (remote_addr
          (request (test_context [("X-Forwarded-For", "unknown, a, b, c, d")]
                      (Some "unknown"))) = None
        \/ remote_addr
             (request (test_context [("X-Forwarded-For", "unknown, a, b, c, d")]
                         (Some "unknown"))) = Some "").
Proof.
  repeat split; try (vm_compute; reflexivity).
  cbn. intros [H|H]; discriminate.
Qed.

(** C7.  When the resolved client IP is ["unknown"], or any string that
    does not validate, the body of [GET /ip] carries that string in [ip],
    ["invalid"] in [network.version] and [false] in [network.is_global],
    whatever the allocation tables say. *)
Theorem invalid_ip_body (addr_is_global : IPAddress -> bool) ctx r :
  get_real_client_ip ctx = Ok r ->
  r = "unknown" \/ validate_ip r = Ok None ->
  exists body,
    get_client_ip addr_is_global ctx = Ok body
    /\ ip body = r
    /\ version (network body) = "invalid"
    /\ is_global (network body) = false.
Proof.
  intros Hr Hinv.
  assert (Hv : validate_ip r = Ok None).
  { destruct Hinv as [->|H]; [vm_compute; reflexivity|exact H]. }
  unfold get_client_ip. rewrite Hr. cbn [bind]. rewrite Hv. cbn.
  eexists. repeat split.
Qed.

Lemma invalid_ip_body_witness :
  exists body,
    get_client_ip (fun _ => true)
      (test_context [("X-Real-IP", "not-an-ip")] None) = Ok body
    /\ ip body = "unknown"
    /\ version (network body) = "invalid"
    /\ is_global (network body) = false.
Proof.
  apply (invalid_ip_body (fun _ => true)
           (test_context [("X-Real-IP", "not-an-ip")] None) "unknown").
  - vm_compute. reflexivity.
  - left. reflexivity.
Defined.

(** C9.  A candidate selected from the [X-Forwarded-For] chain is
    returned trimmed: if the raw elements of the header are
    [before ++ raw :: after], the trimmed [raw] is acceptable and no
    trimmed element of [after] is, the result is [strip raw].  The
    [X-Real-IP] value is validated on its trimmed form but returned raw:
    if step 1 yields nothing and the trimmed header value validates, the
    result is the header value as received. *)
Theorem xri_returned_untrimmed ctx :
  (forall xff before raw after,
     headers (request ctx) !! "X-Forwarded-For" = Some xff ->
     split "," xff = before ++ raw :: after ->
     candidate_ok (TRUSTED_PROXIES (app_config ctx)) (strip raw) = true ->
     forallb (fun x => negb (candidate_ok (TRUSTED_PROXIES (app_config ctx))
                                 (strip x))) after = true ->
     get_real_client_ip ctx = Ok (strip raw))
  /\ (forall xri,
        xff_step ctx = None ->
        headers (request ctx) !! "X-Real-IP" = Some xri ->
        valid (strip xri) = true ->
        validate_ip xri = validate_ip (strip xri)
        /\ get_real_client_ip ctx = Ok xri).
Proof.
  split.
  - intros xff before raw after Hxff Hsplit Hraw Hafter.
    rewrite get_real_client_ip_steps.
    rewrite (xff_step_rightmost ctx xff (map strip before) (strip raw)
               (map strip after)); auto.
    + unfold forwarding_chain. rewrite Hsplit, map_app. reflexivity.
    + rewrite forallb_map_compose. exact Hafter.
  - intros xri Hxff Hxri Hv. split; [symmetry; apply validate_ip_strip|].
    rewrite get_real_client_ip_steps, Hxff. unfold xri_step.
    rewrite Hxri. rewrite valid_strip in Hv. rewrite Hv. reflexivity.
Qed.

(** The scenario of C9: [X-Real-IP: " 1.2.3.4 "] validates as 1.2.3.4
    and is returned with its blanks; the same text in [X-Forwarded-For]
    is returned without them. *)
Lemma xri_returned_untrimmed_witness :
  (validate_ip " 1.2.3.4 " = validate_ip "1.2.3.4"
   /\ get_real_client_ip (test_context [("X-Real-IP", " 1.2.3.4 ")] None)
      = Ok " 1.2.3.4 ")
  /\ get_real_client_ip (test_context [("X-Forwarded-For", " 1.2.3.4 ")] None)
     = Ok "1.2.3.4".
Proof.
  split.
  - apply (proj2 (xri_returned_untrimmed
                    (test_context [("X-Real-IP", " 1.2.3.4 ")] None))
             " 1.2.3.4 "); vm_compute; reflexivity.
  - apply (proj1 (xri_returned_untrimmed
                    (test_context [("X-Forwarded-For", " 1.2.3.4 ")] None))
             " 1.2.3.4 " [] " 1.2.3.4 " []); vm_compute; reflexivity.
Defined.

(** C10.  Membership in the trusted set is tested on the trimmed text of
    the candidate.  An entry [e] that parses to the same address as a
    trusted proxy [t] but is a different string is not in the set: when
    it is the rightmost acceptable entry it is returned. *)
Theorem trust_is_by_text ctx xff before e after t :
  headers (request ctx) !! "X-Forwarded-For" = Some xff ->
  map strip (split "," xff) = before ++ e :: after ->
  forallb (fun x => negb (candidate_ok (TRUSTED_PROXIES (app_config ctx)) x))
    after = true ->
  t ∈ TRUSTED_PROXIES (app_config ctx) ->
  validate_ip e = validate_ip t ->
  valid t = true ->
  (forall s, s ∈ TRUSTED_PROXIES (app_config ctx) -> s <> e) ->
  get_real_client_ip ctx = Ok e.
Proof.
  intros Hxff Hchain Hafter Ht Hsame Hv Htext.
  rewrite get_real_client_ip_steps.
  rewrite (xff_step_rightmost ctx xff before e after); auto.
  apply candidate_ok_intro.
  - unfold valid in Hv |- *. rewrite Hsame. exact Hv.
  - intros He. exact (Htext e He eq_refl).
Qed.

(** The scenario of C10: ["::1"] is trusted, ["0:0:0:0:0:0:0:1"] is the
    same address and is returned. *)
Lemma trust_is_by_text_witness :
  validate_ip "0:0:0:0:0:0:0:1" = validate_ip "::1"
  /\ get_real_client_ip
       (test_context [("X-Forwarded-For", "0:0:0:0:0:0:0:1")] None)
     = Ok "0:0:0:0:0:0:0:1".
Proof.
  split; [vm_compute; reflexivity|].
  apply (trust_is_by_text _ "0:0:0:0:0:0:0:1" [] "0:0:0:0:0:0:0:1" [] "::1").
  - vm_compute. reflexivity.
  - vm_compute. reflexivity.
  - reflexivity.
  - apply (proj1 (bool_decide_eq_true _)). vm_compute. reflexivity.
  - vm_compute. reflexivity.
  - vm_compute. reflexivity.
  - intros s Hs. cbn in Hs.
    apply elem_of_union in Hs as [Hs|Hs]; apply elem_of_singleton in Hs;
      subst s; discriminate.
Defined.

(** * Further properties of the code *)

(** ** The resolver *)

Lemma split_app sep a b :
  split sep (a ++ String sep b)%string = split sep a ++ split sep b.
Proof.
  induction a as [|c a IH].
  - change (split sep (String sep b) = [EmptyString] ++ split sep b).
    cbn [split]. rewrite Ascii.eqb_refl. reflexivity.
  - change (split sep (String c (a ++ String sep b)%string)
            = split sep (String c a) ++ split sep b).
    cbn [split]. rewrite IH. destruct (Ascii.eqb c sep); [reflexivity|].
    pose proof (split_not_nil sep a) as Hne.
    destruct (split sep a) as [|h t]; [congruence|]. reflexivity.
Qed.

Lemma find_app_found {A} (f : A -> bool) (l1 l2 : list A) x :
  find f l1 = Some x -> find f (l1 ++ l2) = Some x.
Proof.
  induction l1 as [|y l1 IH]; simpl; [discriminate|].
  destruct (f y); [auto|exact IH].
Qed.

Lemma find_stronger {A} (f g : A -> bool) (l : list A) x :
  (forall y, g y = true -> f y = true) ->
  find f l = Some x -> g x = true -> find g l = Some x.
Proof.
  intros Hgf. induction l as [|y l IH]; simpl; [discriminate|].
  destruct (f y) eqn:Ef.
  - intros [= ->] Hg. rewrite Hg. reflexivity.
  - intros Hfind Hg. destruct (g y) eqn:Eg; [|auto].
    rewrite (Hgf y Eg) in Ef. discriminate.
Qed.

Lemma find_stronger_none {A} (f g : A -> bool) (l : list A) :
  (forall y, g y = true -> f y = true) ->
  find f l = None -> find g l = None.
Proof.
  intros Hgf. induction l as [|y l IH]; simpl; [reflexivity|].
  destruct (f y) eqn:Ef; [discriminate|].
  intros Hfind. destruct (g y) eqn:Eg; [|auto].
  rewrite (Hgf y Eg) in Ef. discriminate.
Qed.

Lemma valid_empty : valid "" = false.
Proof. vm_compute. reflexivity. Qed.

Lemma valid_nonempty s : valid s = true -> s <> "".
Proof. intros H ->. rewrite valid_empty in H. discriminate. Qed.

Lemma set_header_same name value ctx :
  headers (request (set_header name value ctx)) !! name = Some value.
Proof. cbn. apply lookup_insert_eq. Qed.

Lemma xff_step_set_header ctx xff :
  xff_step (set_header "X-Forwarded-For" xff ctx)
  = find (candidate_ok (TRUSTED_PROXIES (app_config ctx)))
      (rev (forwarding_chain xff)).
Proof. unfold xff_step. rewrite set_header_same. reflexivity. Qed.

Lemma forwarding_chain_app a b :
  forwarding_chain (a ++ String "," b)
  = forwarding_chain a ++ forwarding_chain b.
Proof. unfold forwarding_chain. rewrite split_app, map_app. reflexivity. Qed.

(** X1.  The result is never the empty string: a header value that is
    selected validates, so it is not empty, and an empty peer address is
    replaced by ["unknown"]. *)
Theorem resolver_never_empty ctx r :
  get_real_client_ip ctx = Ok r -> r <> "".
Proof.
  rewrite get_real_client_ip_steps. intros [= <-].
  unfold xff_step, xri_step, peer_or_unknown.
  assert (Hpeer :
    match remote_addr (request ctx) with
    | Some a => if truthy a then a else "unknown"
    | None => "unknown"
    end <> "").
  { destruct (remote_addr (request ctx)) as [[|c a]|]; discriminate. }
  assert (Hxri :
    match
      match headers (request ctx) !! "X-Real-IP" with
      | Some xri => if valid xri then Some xri else None
      | None => None
      end
    with
    | Some xri => xri
    | None =>
        match remote_addr (request ctx) with
        | Some a => if truthy a then a else "unknown"
        | None => "unknown"
        end
    end <> "").
  { destruct (headers (request ctx) !! "X-Real-IP") as [xri|]; [|exact Hpeer].
    destruct (valid xri) eqn:Hv; [|exact Hpeer]. apply valid_nonempty, Hv. }
  destruct (headers (request ctx) !! "X-Forwarded-For") as [xff|];
    [|exact Hxri].
  destruct (find _ _) as [ip|] eqn:E; [|exact Hxri].
  apply find_candidate_valid in E as (_ & Hv & _). apply valid_nonempty, Hv.
Qed.

Lemma resolver_never_empty_witness :
  "unknown" <> "".
Proof.
  apply (resolver_never_empty (test_context [] (Some ""))).
  vm_compute. reflexivity.
Defined.

(** X2.  Entries added on the left of [X-Forwarded-For] cannot change the
    result once the header has an acceptable entry: whatever text [p] a
    client puts in front, the resolver still returns the entry it
    returned without it. *)
Theorem xff_prefix_ignored ctx p xff ip :
  xff_step (set_header "X-Forwarded-For" xff ctx) = Some ip ->
  get_real_client_ip (set_header "X-Forwarded-For" xff ctx) = Ok ip
  /\ get_real_client_ip
       (set_header "X-Forwarded-For" (p ++ String "," xff) ctx) = Ok ip.
Proof.
  intros H. split; rewrite get_real_client_ip_steps; [rewrite H; reflexivity|].
  rewrite xff_step_set_header in H |- *.
  rewrite forwarding_chain_app, rev_app_distr.
  rewrite (find_app_found _ _ _ _ H). reflexivity.
Qed.

Lemma xff_prefix_ignored_witness :
  get_real_client_ip
    (set_header "X-Forwarded-For" "6.6.6.6, evil,203.0.113.5, 127.0.0.1"
       (test_context [] (Some "10.0.0.1")))
  = Ok "203.0.113.5".
Proof.
  apply (xff_prefix_ignored (test_context [] (Some "10.0.0.1"))
           "6.6.6.6, evil" "203.0.113.5, 127.0.0.1" "203.0.113.5").
  vm_compute. reflexivity.
Defined.

(** X3.  An entry added on the right of [X-Forwarded-For] that is
    trusted or does not validate is skipped by the scan.  Take two
    requests under the same trusted set, the second with header value
    [xff], the first with [xff], a comma and such an entry.  If the
    second header yields an entry, both requests resolve to it, whatever
    their other headers and peer addresses.  If the two requests also
    have the same [X-Real-IP] header and the same peer address, their
    results are equal in every case.  The condition on the peer address
    is a real one: the proxy middleware set up in [main.py] takes the
    peer address from the same header, so it can differ between the two
    requests. *)
Theorem xff_unacceptable_suffix_skipped ctx1 ctx2 xff e :
  headers (request ctx1) !! "X-Forwarded-For"
  = Some (xff ++ String "," e)%string ->
  headers (request ctx2) !! "X-Forwarded-For" = Some xff ->
  TRUSTED_PROXIES (app_config ctx1) = TRUSTED_PROXIES (app_config ctx2) ->
  contains "," e = false ->
  valid (strip e)
  && negb (bool_decide (strip e ∈ TRUSTED_PROXIES (app_config ctx2)))
  = false ->
  (forall ip,
     xff_step ctx2 = Some ip ->
     get_real_client_ip ctx1 = Ok ip /\ get_real_client_ip ctx2 = Ok ip)
  /\ (headers (request ctx1) !! "X-Real-IP"
      = headers (request ctx2) !! "X-Real-IP" ->
      remote_addr (request ctx1) = remote_addr (request ctx2) ->
      get_real_client_ip ctx1 = get_real_client_ip ctx2).
Proof.
  intros H1 H2 Ht Hcomma He.
  assert (Hstep : xff_step ctx1 = xff_step ctx2).
  { unfold xff_step. rewrite H1, H2, Ht.
    rewrite forwarding_chain_app, rev_app_distr.
    unfold forwarding_chain at 1. rewrite (split_no_sep _ _ Hcomma).
    cbn [map rev app find]. unfold candidate_ok at 1. rewrite He.
    reflexivity. }
  split.
  - intros ip Hip. rewrite !get_real_client_ip_steps, Hstep, Hip. auto.
  - intros Hxri Hpeer. rewrite !get_real_client_ip_steps, Hstep.
    unfold xri_step, peer_or_unknown. rewrite Hxri, Hpeer. reflexivity.
Qed.

(** Two requests as the handler sees them behind the proxy middleware,
    both sent from 10.0.0.9: the peer addresses differ, the result does
    not.  And two requests with the same peer address and no usable
    entry: both fall back to it. *)
Lemma xff_unacceptable_suffix_skipped_witness :
  (get_real_client_ip
     (test_context [("X-Forwarded-For", "203.0.113.5, a, b, c, ::1 ")]
        (Some "203.0.113.5"))
   = Ok "203.0.113.5"
   /\ get_real_client_ip
        (test_context [("X-Forwarded-For", "203.0.113.5, a, b, c")]
           (Some "10.0.0.9"))
      = Ok "203.0.113.5")
  /\ get_real_client_ip
       (test_context [("X-Forwarded-For", "bogus,127.0.0.1")]
          (Some "10.0.0.9"))
     = get_real_client_ip
         (test_context [("X-Forwarded-For", "bogus")] (Some "10.0.0.9")).
Proof.
  split.
  - refine (proj1 (xff_unacceptable_suffix_skipped
                     (test_context
                        [("X-Forwarded-For", "203.0.113.5, a, b, c, ::1 ")]
                        (Some "203.0.113.5"))
                     (test_context
                        [("X-Forwarded-For", "203.0.113.5, a, b, c")]
                        (Some "10.0.0.9"))
                     "203.0.113.5, a, b, c" " ::1 " _ _ _ _ _) _ _);
      vm_compute; reflexivity.
  - refine (proj2 (xff_unacceptable_suffix_skipped
                     (test_context [("X-Forwarded-For", "bogus,127.0.0.1")]
                        (Some "10.0.0.9"))
                     (test_context [("X-Forwarded-For", "bogus")]
                        (Some "10.0.0.9"))
                     "bogus" "127.0.0.1" _ _ _ _ _) _ _);
      vm_compute; reflexivity.
Defined.

(** X4.  Priority of the steps.  When [X-Forwarded-For] yields an entry, every
    request with the same [X-Forwarded-For] header and the same trusted
    set resolves to it, whatever its [X-Real-IP] header and peer address
    are; when [X-Forwarded-For] yields nothing and [X-Real-IP]
    validates, the peer address does not matter. *)
Theorem earlier_step_wins ctx ctx' :
  headers (request ctx') !! "X-Forwarded-For"
  = headers (request ctx) !! "X-Forwarded-For" ->
  TRUSTED_PROXIES (app_config ctx') = TRUSTED_PROXIES (app_config ctx) ->
  (forall ip, xff_step ctx = Some ip -> get_real_client_ip ctx' = Ok ip)
  /\ (forall xri,
        xff_step ctx = None ->
        headers (request ctx') !! "X-Real-IP" = Some xri ->
        valid xri = true ->
        get_real_client_ip ctx' = Ok xri).
Proof.
  intros Hh Ht.
  assert (Hstep : xff_step ctx' = xff_step ctx).
  { unfold xff_step. rewrite Hh, Ht. reflexivity. }
  split.
  - intros ip Hip. rewrite get_real_client_ip_steps, Hstep, Hip. reflexivity.
  - intros xri Hnone Hxri Hv.
    rewrite get_real_client_ip_steps, Hstep, Hnone.
    unfold xri_step. rewrite Hxri, Hv. reflexivity.
Qed.

Lemma earlier_step_wins_witness :
  get_real_client_ip
    (test_context
       [("X-Forwarded-For", "203.0.113.5"); ("X-Real-IP", "198.51.100.1")]
       (Some "10.9.9.9"))
  = Ok "203.0.113.5".
Proof.
  apply (proj1 (earlier_step_wins
                  (test_context [("X-Forwarded-For", "203.0.113.5")] None)
                  (test_context
                     [("X-Forwarded-For", "203.0.113.5");
                      ("X-Real-IP", "198.51.100.1")]
                     (Some "10.9.9.9"))
                  eq_refl eq_refl)).
  vm_compute. reflexivity.
Defined.

Lemma candidate_ok_trust t trusted y :
  candidate_ok ({[ t ]} ∪ trusted) y = true -> candidate_ok trusted y = true.
Proof.
  unfold candidate_ok. intros H. apply andb_prop in H as [Hv Ht].
  rewrite Hv. cbn [andb]. apply negb_true_iff, bool_decide_eq_false in Ht.
  apply negb_true_iff, bool_decide_eq_false. set_solver.
Qed.

(** X5.  Trusting one more proxy changes nothing for a request that did not
    resolve to that proxy. *)
Theorem extra_trusted_proxy_harmless ctx t r :
  get_real_client_ip ctx = Ok r ->
  t <> r ->
  get_real_client_ip (trust t ctx) = Ok r.
Proof.
  rewrite !get_real_client_ip_steps. intros [= Hr] Hne.
  assert (Hrest : xri_step (trust t ctx) = xri_step ctx
                  /\ peer_or_unknown (trust t ctx) = peer_or_unknown ctx)
    by (split; reflexivity).
  destruct Hrest as [-> ->].
  unfold xff_step in *. cbn [trust request app_config TRUSTED_PROXIES].
  destruct (headers (request ctx) !! "X-Forwarded-For") as [xff|];
    [|rewrite Hr; reflexivity].
  destruct (find (candidate_ok (TRUSTED_PROXIES (app_config ctx))) _)
    as [ip|] eqn:E.
  - subst ip.
    rewrite (find_stronger _ (candidate_ok ({[ t ]} ∪ _)) _ r
               (candidate_ok_trust t _) E); [reflexivity|].
    apply find_candidate_valid in E as (_ & Hv & Ht).
    apply candidate_ok_intro; [exact Hv|].
    intros Hin. apply elem_of_union in Hin as [Hin|Hin]; [|contradiction].
    apply elem_of_singleton in Hin. congruence.
  - rewrite (find_stronger_none _ (candidate_ok ({[ t ]} ∪ _)) _
               (candidate_ok_trust t _) E).
    rewrite Hr. reflexivity.
Qed.

Lemma extra_trusted_proxy_harmless_witness :
  get_real_client_ip
    (trust "10.0.0.1"
       (test_context [("X-Forwarded-For", "10.0.0.1, 203.0.113.5")] None))
  = Ok "203.0.113.5".
Proof.
  apply extra_trusted_proxy_harmless; [vm_compute; reflexivity|discriminate].
Defined.

(** ** The [/ip] handler *)

Lemma get_real_client_ip_total ctx : exists r, get_real_client_ip ctx = Ok r.
Proof. rewrite get_real_client_ip_steps. eauto. Qed.

Lemma get_client_ip_steps (addr_is_global : IPAddress -> bool) ctx r v :
  get_real_client_ip ctx = Ok r ->
  validate_ip r = Ok v ->
  get_client_ip addr_is_global ctx =
  Ok {| ip := r;
        network :=
          match v with
          | Some a =>
              {| is_global := addr_is_global a;
                 version := if isinstance_IPv4Address a then "v4" else "v6" |}
          | None => {| is_global := false; version := "invalid" |}
          end;
        meta := {| forwarded_for := headers (request ctx) !! "X-Forwarded-For";
                   real_ip := headers (request ctx) !! "X-Real-IP";
                   meta_remote_addr := remote_addr (request ctx) |} |}.
Proof.
  intros Hr Hv. unfold get_client_ip. rewrite Hr. cbn [bind].
  rewrite Hv. cbn [bind]. destruct v as [a|]; cbn [truth bind]; [|reflexivity].
  destruct (isinstance_IPv4Address a); reflexivity.
Qed.

(** X6.  [GET /ip] always answers, whatever the request: the handler does not
    raise (the attribute read on the second validation never meets
    [None]).  The body carries the resolved string in [ip]; [network]
    describes the address that string validates to, ["v4"] or ["v6"] with
    the table's [is_global], and is ["invalid"] with [false] when it does
    not validate; [meta] repeats the two headers and the peer address as
    received. *)
Theorem get_client_ip_body (addr_is_global : IPAddress -> bool) ctx :
  exists r v,
    get_real_client_ip ctx = Ok r
    /\ validate_ip r = Ok v
    /\ get_client_ip addr_is_global ctx =
       Ok {| ip := r;
             network :=
               match v with
               | Some a =>
                   {| is_global := addr_is_global a;
                      version :=
                        if isinstance_IPv4Address a then "v4" else "v6" |}
               | None => {| is_global := false; version := "invalid" |}
               end;
             meta :=
               {| forwarded_for := headers (request ctx) !! "X-Forwarded-For";
                  real_ip := headers (request ctx) !! "X-Real-IP";
                  meta_remote_addr := remote_addr (request ctx) |} |}.
Proof.
  destruct (get_real_client_ip_total ctx) as [r Hr].
  destruct (validate_ip_total r) as [v Hv].
  exists r, v. split; [exact Hr|]. split; [exact Hv|].
  apply get_client_ip_steps; assumption.
Qed.

(** X7.  A body whose version is ["invalid"] comes from the fallback: neither
    header yielded an address, and [ip] is the peer address or
    ["unknown"].  So whenever a forwarding header is used, the body
    reports ["v4"] or ["v6"]. *)
Theorem invalid_version_means_fallback (addr_is_global : IPAddress -> bool)
    ctx b :
  get_client_ip addr_is_global ctx = Ok b ->
  version (network b) = "invalid" ->
  xff_step ctx = None /\ xri_step ctx = None /\ ip b = peer_or_unknown ctx.
Proof.
  intros Hb Hver.
  destruct (get_real_client_ip_total ctx) as [r Hr].
  destruct (validate_ip_total r) as [v Hv].
  rewrite (get_client_ip_steps addr_is_global ctx r v Hr Hv) in Hb.
  injection Hb as <-. cbn [ip network] in *.
  assert (Hinv : valid r = false).
  { unfold valid. rewrite Hv. destruct v as [a|]; [|reflexivity].
    cbn [version] in Hver. destruct (isinstance_IPv4Address a); discriminate. }
  rewrite get_real_client_ip_steps in Hr. injection Hr as Hr.
  unfold xff_step, xri_step in *.
  destruct (headers (request ctx) !! "X-Forwarded-For") as [xff|].
  - destruct (find _ _) as [ip0|] eqn:E.
    + apply find_candidate_valid in E as (_ & Hvalid & _). congruence.
    + destruct (headers (request ctx) !! "X-Real-IP") as [xri|]; [|auto].
      destruct (valid xri) eqn:Hx; [congruence|auto].
  - destruct (headers (request ctx) !! "X-Real-IP") as [xri|]; [|auto].
    destruct (valid xri) eqn:Hx; [congruence|auto].
Qed.

Lemma invalid_version_means_fallback_witness :
  ip {| ip := "localhost";
        network := {| is_global := false; version := "invalid" |};
        meta := {| forwarded_for := Some "::1"; real_ip := None;
                   meta_remote_addr := Some "localhost" |} |}
  = peer_or_unknown
      (test_context [("X-Forwarded-For", "::1")] (Some "localhost")).
Proof.
  apply (invalid_version_means_fallback (fun _ => true)
           (test_context [("X-Forwarded-For", "::1")] (Some "localhost"))).
  - vm_compute. reflexivity.
  - reflexivity.
Defined.

(** ** Decimal writing *)

(** The fuel of [str] is enough: the digits it writes read back as the
    number. *)
Lemma digit_value_dec_char d :
  0 <= d < 10 -> digit_value (ascii_of_N (Z.to_N (48 + d))) = Some d.
Proof.
  intros Hd.
  assert (H : d = 0 \/ d = 1 \/ d = 2 \/ d = 3 \/ d = 4 \/ d = 5 \/ d = 6
              \/ d = 7 \/ d = 8 \/ d = 9) by lia.
  repeat (destruct H as [->|H]; [reflexivity|]). subst d. reflexivity.
Qed.

Lemma str_digits_read fuel :
  forall n acc a,
    (0 < fuel)%nat -> 0 <= n < 10 ^ Z.of_nat fuel ->
    exists k,
      0 <= k
      /\ int_digits 10 a (str_digits fuel n acc)
         = int_digits 10 (a * 10 ^ k + n) acc.
Proof.
  induction fuel as [|fuel IH]; intros n acc a Hfuel Hn; [lia|].
  cbn [str_digits].
  assert (Hmod : 0 <= n mod 10 < 10) by (apply Z.mod_pos_bound; lia).
  assert (Hstep : forall b,
    int_digits 10 b (String (ascii_of_N (Z.to_N (48 + n mod 10))) acc)
    = int_digits 10 (b * 10 + n mod 10) acc).
  { intros b. cbn [int_digits]. rewrite (digit_value_dec_char _ Hmod).
    destruct (Z.ltb_spec (n mod 10) 10); [reflexivity|lia]. }
  pose proof (Z.div_mod n 10 ltac:(lia)) as Hdm.
  destruct (Z.eqb_spec (n / 10) 0) as [Hq|Hq].
  - exists 1. split; [lia|]. rewrite Hstep. f_equal. lia.
  - assert (Hq0 : 0 <= n / 10) by (apply Z.div_pos; lia).
    destruct fuel as [|fuel'].
    { change (10 ^ Z.of_nat 1) with 10 in Hn. lia. }
    destruct (IH (n / 10) (String (ascii_of_N (Z.to_N (48 + n mod 10))) acc) a)
      as [k [Hk E]].
    + lia.
    + split; [exact Hq0|]. apply Z.div_lt_upper_bound; [lia|].
      replace (Z.of_nat (S (S fuel'))) with (Z.of_nat (S fuel') + 1) in Hn
        by lia.
      rewrite Z.pow_add_r in Hn by lia. lia.
    + exists (k + 1). split; [lia|]. rewrite E, Hstep. f_equal.
      rewrite Z.pow_add_r by lia. lia.
Qed.

Lemma str_digits_truthy fuel n acc :
  (0 < fuel)%nat -> truthy (str_digits fuel n acc) = true.
Proof.
  revert n acc. induction fuel as [|fuel IH]; intros n acc Hfuel; [lia|].
  cbn [str_digits]. destruct (n / 10 =? 0); [reflexivity|].
  destruct fuel as [|fuel']; [reflexivity|]. apply IH. lia.
Qed.

Lemma str_reads_back n : 0 <= n -> int (str n) 10 = Ok n.
Proof.
  intros Hn. unfold int, str.
  destruct (Z.ltb_spec n 0); [lia|].
  rewrite str_digits_truthy by lia.
  destruct (str_digits_read (S (Z.to_nat (Z.log2 n))) n EmptyString 0)
    as [k [Hk E]].
  - lia.
  - split; [exact Hn|].
    rewrite Nat2Z.inj_succ, Z2Nat.id by apply Z.log2_nonneg.
    destruct (Z.eq_dec n 0) as [->|Hne]; [reflexivity|].
    pose proof (Z.log2_spec n ltac:(lia)) as [_ Hlt].
    eapply Z.lt_le_trans; [exact Hlt|].
    apply Z.pow_le_mono_l. lia.
  - rewrite E. reflexivity.
Qed.

(** ** What the validator accepts *)

Lemma digit_value_nonneg c d : digit_value c = Some d -> 0 <= d.
Proof.
  unfold digit_value.
  destruct ((48 <=? ord c) && (ord c <=? 57)) eqn:E1;
    [apply andb_prop in E1 as [E1 _]; apply Z.leb_le in E1;
     intros [= <-]; lia|].
  destruct ((97 <=? ord c) && (ord c <=? 102)) eqn:E2;
    [apply andb_prop in E2 as [E2 _]; apply Z.leb_le in E2;
     intros [= <-]; lia|].
  destruct ((65 <=? ord c) && (ord c <=? 70)) eqn:E3;
    [apply andb_prop in E3 as [E3 _]; apply Z.leb_le in E3;
     intros [= <-]; lia|].
  discriminate.
Qed.

Lemma int_digits_nonneg base s :
  forall acc v,
    0 <= base -> 0 <= acc -> int_digits base acc s = Ok v -> 0 <= v.
Proof.
  induction s as [|c s IH]; intros acc v Hb Hacc; cbn [int_digits].
  - intros [= <-]. exact Hacc.
  - destruct (digit_value c) as [d|] eqn:Ed; [|discriminate].
    destruct (d <? base); [|discriminate].
    apply IH; [exact Hb|]. pose proof (digit_value_nonneg _ _ Ed). nia.
Qed.

Lemma int_nonneg s base v : 0 <= base -> int s base = Ok v -> 0 <= v.
Proof.
  unfold int. intros Hb. destruct (truthy s); [|discriminate].
  apply int_digits_nonneg; lia.
Qed.

(** An octet that parses is a string of decimal digits and its value is
    a byte. *)
Lemma parse_octet_ok o v :
  BaseV4._parse_octet o = Ok v -> isascii_isdigit o = true /\ 0 <= v <= 255.
Proof.
  unfold BaseV4._parse_octet.
  destruct (negb (truthy o)); [discriminate|].
  destruct (isascii_isdigit o); cbn [negb]; [|discriminate].
  destruct (3 <? len_str o); [discriminate|].
  match goal with
  | |- context [bind ?r _] => destruct r as [lz|e]; cbn [bind]; [|discriminate]
  end.
  destruct lz; [discriminate|].
  destruct (int o 10) as [w|e] eqn:Ei; cbn [bind]; [|discriminate].
  destruct (Z.ltb_spec 255 w); [discriminate|].
  intros [= <-]. split; [reflexivity|].
  split; [apply (int_nonneg o 10); [lia|exact Ei]|assumption].
Qed.

Lemma isascii_isdigit_chars o :
  isascii_isdigit o = true ->
  truthy o = true /\ forallb is_ascii_digit (list_ascii_of_string o) = true.
Proof. unfold isascii_isdigit. intros H. apply andb_prop in H. exact H. Qed.

Lemma digits_dotted o :
  isascii_isdigit o = true ->
  forallb dotted_char (list_ascii_of_string o) = true.
Proof.
  intros H. apply isascii_isdigit_chars in H as [_ H].
  eapply forallb_weaken; [|exact H]. apply digit_dotted.
Qed.

Lemma digits_no_dot o :
  isascii_isdigit o = true -> negb (contains "." o) = true.
Proof.
  intros H. apply isascii_isdigit_chars in H as [_ H].
  apply negb_true_iff. eapply forallb_contains; [exact H|]. reflexivity.
Qed.

Lemma truthy_app a b : truthy a = true -> truthy (a ++ b)%string = true.
Proof. destruct a; [discriminate|reflexivity]. Qed.

(** Four octets that parse, joined by dots, are an IPv4 address: the
    bytes in big-endian order. *)
Lemma IPv4Address_init_quad o1 o2 o3 o4 v1 v2 v3 v4 :
  BaseV4._parse_octet o1 = Ok v1 -> BaseV4._parse_octet o2 = Ok v2 ->
  BaseV4._parse_octet o3 = Ok v3 -> BaseV4._parse_octet o4 = Ok v4 ->
  strip (join "." [o1; o2; o3; o4]) = join "." [o1; o2; o3; o4]
  /\ IPv4Address_init (join "." [o1; o2; o3; o4])
     = Ok (IPv4Address (((v1 * 256 + v2) * 256 + v3) * 256 + v4)).
Proof.
  intros H1 H2 H3 H4.
  destruct (parse_octet_ok _ _ H1) as [D1 B1].
  destruct (parse_octet_ok _ _ H2) as [D2 B2].
  destruct (parse_octet_ok _ _ H3) as [D3 B3].
  destruct (parse_octet_ok _ _ H4) as [D4 B4].
  assert (Hchars :
    forallb dotted_char (list_ascii_of_string (join "." [o1; o2; o3; o4]))
    = true).
  { apply forallb_chars_join; [reflexivity|].
    cbn [forallb]. rewrite !digits_dotted by assumption. reflexivity. }
  split.
  { apply strip_no_space.
    eapply forallb_weaken; [|exact Hchars]. apply dotted_char_no_space. }
  unfold IPv4Address_init.
  rewrite (forallb_contains _ _ "/"%char Hchars) by reflexivity.
  unfold BaseV4._ip_int_from_string.
  assert (Ht : truthy (join "." [o1; o2; o3; o4]) = true).
  { apply truthy_app. apply isascii_isdigit_chars in D1 as [D1 _]. exact D1. }
  rewrite Ht. cbn [negb].
  rewrite split_join;
    [|discriminate
     |cbn [forallb]; rewrite !digits_no_dot by assumption; reflexivity].
  change (len [o1; o2; o3; o4] =? 4) with true. cbn [negb mapM].
  rewrite H1, H2, H3, H4. cbn [bind].
  unfold int_from_bytes_big. cbn [for_].
  replace ((0 <=? v1) && (v1 <? 256)) with true
    by (symmetry; apply andb_true_intro; split;
        [apply Z.leb_le|apply Z.ltb_lt]; lia).
  cbn [bind].
  replace ((0 <=? v2) && (v2 <? 256)) with true
    by (symmetry; apply andb_true_intro; split;
        [apply Z.leb_le|apply Z.ltb_lt]; lia).
  cbn [bind].
  replace ((0 <=? v3) && (v3 <? 256)) with true
    by (symmetry; apply andb_true_intro; split;
        [apply Z.leb_le|apply Z.ltb_lt]; lia).
  cbn [bind].
  replace ((0 <=? v4) && (v4 <? 256)) with true
    by (symmetry; apply andb_true_intro; split;
        [apply Z.leb_le|apply Z.ltb_lt]; lia).
  cbn [bind try_except]. reflexivity.
Qed.

Lemma validate_ip_v4 s a :
  IPv4Address_init (strip s) = Ok a -> validate_ip s = Ok (Some a).
Proof. intros H. unfold validate_ip, ip_address. rewrite H. reflexivity. Qed.

Lemma range_In a b i : a <= i < b -> In i (range a b).
Proof.
  intros Hi. unfold range. apply in_map_iff.
  exists (Z.to_nat (i - a)). split; [lia|]. apply in_seq. lia.
Qed.

(** Every byte written in decimal parses back to itself. *)
Lemma parse_octet_str n :
  0 <= n <= 255 -> BaseV4._parse_octet (str n) = Ok n.
Proof.
  intros Hn.
  assert (Hall :
    forallb (fun k => match BaseV4._parse_octet (str k) with
                      | Ok m => m =? k
                      | Raise _ => false
                      end) (range 0 256) = true)
    by (vm_compute; reflexivity).
  pose proof (proj1 (forallb_forall _ _) Hall n (range_In 0 256 n ltac:(lia)))
    as H.
  cbv beta in H. destruct (BaseV4._parse_octet (str n)); [|discriminate].
  apply Z.eqb_eq in H. congruence.
Qed.

Lemma digit_cases c :
  is_ascii_digit c = true ->
  In c ["0"; "1"; "2"; "3"; "4"; "5"; "6"; "7"; "8"; "9"]%char.
Proof.
  destruct c as [[] [] [] [] [] [] [] []]; vm_compute;
    first [discriminate | intros _; tauto].
Qed.

(** An octet that parses is the decimal writing of its value: no sign,
    no blank, no leading zero. *)
Lemma parse_octet_canonical o v :
  BaseV4._parse_octet o = Ok v -> o = str v.
Proof.
  intros H. pose proof (parse_octet_ok _ _ H) as [D _].
  apply isascii_isdigit_chars in D as [_ D].
  destruct o as [|c1 [|c2 [|c3 [|c4 o]]]].
  - discriminate.
  - cbn [list_ascii_of_string forallb] in D.
    apply andb_prop in D as [D1 _].
    apply digit_cases in D1. cbn [In] in D1.
    repeat (destruct D1 as [<-|D1];
            [vm_compute in H; injection H as <-; reflexivity|]).
    contradiction.
  - cbn [list_ascii_of_string forallb] in D.
    apply andb_prop in D as [D1 D]. apply andb_prop in D as [D2 _].
    apply digit_cases in D1, D2. cbn [In] in D1, D2.
    repeat (destruct D1 as [<-|D1];
            [repeat (destruct D2 as [<-|D2];
                     [vm_compute in H;
                      first [discriminate | injection H as <-; reflexivity]|]);
             contradiction|]).
    contradiction.
  - cbn [list_ascii_of_string forallb] in D.
    apply andb_prop in D as [D1 D]. apply andb_prop in D as [D2 D].
    apply andb_prop in D as [D3 _].
    apply digit_cases in D1, D2, D3. cbn [In] in D1, D2, D3.
    repeat (destruct D1 as [<-|D1];
            [repeat (destruct D2 as [<-|D2];
                     [repeat (destruct D3 as [<-|D3];
                              [vm_compute in H;
                               first [discriminate
                                     | injection H as <-; reflexivity]|]);
                      contradiction|]);
             contradiction|]).
    contradiction.
  - exfalso. revert H. unfold BaseV4._parse_octet.
    destruct (negb (truthy _)); [discriminate|].
    destruct (negb (isascii_isdigit _)); [discriminate|].
    destruct (Z.ltb_spec 3
                (len_str (String c1 (String c2 (String c3 (String c4 o))))))
      as [|Hlen]; [discriminate|].
    unfold len_str in Hlen. cbn [String.length] in Hlen. lia.
Qed.

Lemma join_split sep s : join sep (split sep s) = s.
Proof.
  induction s as [|c s IH]; [reflexivity|].
  cbn [split]. pose proof (split_not_nil sep s) as Hne.
  destruct (Ascii.eqb_spec c sep) as [->|Hc].
  - destruct (split sep s) as [|h t]; [congruence|].
    change (String sep (join sep (h :: t)) = String sep s). rewrite IH.
    reflexivity.
  - destruct (split sep s) as [|h t]; [congruence|].
    destruct t as [|y t].
    + cbn [join] in IH |- *. rewrite IH. reflexivity.
    + change (String c (h ++ String sep (join sep (y :: t)))%string
              = String c s).
      change (h ++ String sep (join sep (y :: t)))%string
        with (join sep (h :: y :: t)).
      rewrite IH. reflexivity.
Qed.

Lemma len_4 {A} (l : list A) :
  (len l =? 4) = true -> exists a b c d, l = [a; b; c; d].
Proof.
  intros H. apply Z.eqb_eq in H. unfold len in H.
  destruct l as [|a [|b [|c [|d [|e l]]]]]; cbn [length] in H; try lia.
  eauto.
Qed.

(** What the IPv4 constructor accepts is four octets joined by dots. *)
Lemma IPv4Address_init_inv t a :
  IPv4Address_init t = Ok a ->
  exists o1 o2 o3 o4 v1 v2 v3 v4,
    t = join "." [o1; o2; o3; o4]
    /\ BaseV4._parse_octet o1 = Ok v1 /\ BaseV4._parse_octet o2 = Ok v2
    /\ BaseV4._parse_octet o3 = Ok v3 /\ BaseV4._parse_octet o4 = Ok v4
    /\ a = IPv4Address (((v1 * 256 + v2) * 256 + v3) * 256 + v4).
Proof.
  intros H0. pose proof H0 as H. unfold IPv4Address_init in H.
  destruct (contains "/" t); [discriminate|].
  unfold BaseV4._ip_int_from_string in H.
  destruct (truthy t); cbn [negb] in H; [|discriminate].
  destruct (len (split "." t) =? 4) eqn:Elen; cbn [negb] in H;
    [|discriminate].
  destruct (len_4 _ Elen) as (o1 & o2 & o3 & o4 & Hsplit).
  assert (Ht : t = join "." [o1; o2; o3; o4])
    by (rewrite <- Hsplit; symmetry; apply join_split).
  rewrite Hsplit in H. cbn [mapM] in H.
  pose proof (parse_octet_raises o1) as R1.
  pose proof (parse_octet_raises o2) as R2.
  pose proof (parse_octet_raises o3) as R3.
  pose proof (parse_octet_raises o4) as R4.
  destruct (BaseV4._parse_octet o1) as [v1|e1] eqn:H1;
    [|cbn in R1; subst e1; discriminate].
  destruct (BaseV4._parse_octet o2) as [v2|e2] eqn:H2;
    [|cbn in R2; subst e2; discriminate].
  destruct (BaseV4._parse_octet o3) as [v3|e3] eqn:H3;
    [|cbn in R3; subst e3; discriminate].
  destruct (BaseV4._parse_octet o4) as [v4|e4] eqn:H4;
    [|cbn in R4; subst e4; discriminate].
  exists o1, o2, o3, o4, v1, v2, v3, v4.
  split; [exact Ht|]. repeat (split; [assumption|]).
  pose proof (IPv4Address_init_quad _ _ _ _ _ _ _ _ H1 H2 H3 H4) as [_ Hq].
  rewrite <- Ht in Hq. congruence.
Qed.

Lemma IPv6Address_init_is_v6 t a :
  IPv6Address_init t = Ok a -> isinstance_IPv4Address a = false.
Proof.
  unfold IPv6Address_init.
  destruct (contains "/" t); [discriminate|].
  destruct (BaseV6._split_scope_id t) as [[addr sc]|]; cbn [bind];
    [|discriminate].
  destruct (BaseV6._ip_int_from_string addr); cbn [bind]; [|discriminate].
  intros [= <-]. reflexivity.
Qed.

(** What [validate_ip] returns comes from one of the two constructors,
    the IPv4 one first. *)
Lemma validate_ip_inv s a :
  validate_ip s = Ok (Some a) ->
  IPv4Address_init (strip s) = Ok a
  \/ ((exists e, IPv4Address_init (strip s) = Raise e)
      /\ IPv6Address_init (strip s) = Ok a).
Proof.
  unfold validate_ip, ip_address.
  pose proof (IPv4Address_init_raises (strip s)) as R4.
  pose proof (IPv6Address_init_raises (strip s)) as R6.
  destruct (IPv4Address_init (strip s)) as [a4|e4].
  - cbn. intros [= <-]. left. reflexivity.
  - cbn in R4. subst e4. cbn [is_Address_or_Netmask_error].
    destruct (IPv6Address_init (strip s)) as [a6|e6].
    + cbn. intros [= <-]. right. eauto.
    + cbn in R6. subst e6. cbn. discriminate.
Qed.

(** X9.  [validate_ip] returns an IPv4 address exactly for the dotted quads in
    canonical decimal writing (around them, blanks only): four numbers
    from 0 to 255, each written without sign or leading zero, joined by
    dots; the address is their big-endian value. *)
Theorem validate_ip_ipv4_iff s n :
  validate_ip s = Ok (Some (IPv4Address n))
  <-> exists a b c d,
        0 <= a <= 255 /\ 0 <= b <= 255 /\ 0 <= c <= 255 /\ 0 <= d <= 255
        /\ strip s = join "." [str a; str b; str c; str d]
        /\ n = a * 16777216 + b * 65536 + c * 256 + d.
Proof.
  split.
  - intros H. apply validate_ip_inv in H as [H|[_ H]].
    + apply IPv4Address_init_inv in H
        as (o1 & o2 & o3 & o4 & a & b & c & d & Ht & H1 & H2 & H3 & H4 & Hn).
      exists a, b, c, d.
      destruct (parse_octet_ok _ _ H1) as [_ B1].
      destruct (parse_octet_ok _ _ H2) as [_ B2].
      destruct (parse_octet_ok _ _ H3) as [_ B3].
      destruct (parse_octet_ok _ _ H4) as [_ B4].
      repeat (split; [lia|]).
      rewrite <- (parse_octet_canonical _ _ H1), <- (parse_octet_canonical _ _ H2),
        <- (parse_octet_canonical _ _ H3), <- (parse_octet_canonical _ _ H4).
      split; [exact Ht|]. injection Hn as ->. lia.
    + apply IPv6Address_init_is_v6 in H. discriminate.
  - intros (a & b & c & d & Ha & Hb & Hc & Hd & Hs & ->).
    apply validate_ip_v4. rewrite Hs.
    destruct (IPv4Address_init_quad _ _ _ _ _ _ _ _
                (parse_octet_str a Ha) (parse_octet_str b Hb)
                (parse_octet_str c Hc) (parse_octet_str d Hd)) as [_ ->].
    do 2 f_equal. lia.
Qed.

Lemma validate_ip_ipv4_iff_witness :
  validate_ip "  203.0.113.5" = Ok (Some (IPv4Address 3405803781)).
Proof.
  apply (proj2 (validate_ip_ipv4_iff "  203.0.113.5" 3405803781)).
  exists 203, 0, 113, 5. repeat (split; [lia|]).
  split; vm_compute; reflexivity.
Defined.

(** ** More of what the validator rejects *)

Lemma parse_octet_leading_zero o :
  leading_zero o = true -> BaseV4._parse_octet o = Raise ValueError.
Proof.
  destruct o as [|c [|c' o]]; [discriminate|discriminate|].
  cbn [leading_zero]. intros Hc. apply Ascii.eqb_eq in Hc. subst c.
  unfold BaseV4._parse_octet. cbn [truthy negb].
  destruct (isascii_isdigit _); cbn [negb]; [|reflexivity].
  destruct (3 <? len_str _); reflexivity.
Qed.

(** Decimal octets joined by dots are rejected when one of them does not
    parse. *)
Lemma reject_unparsable_octet octets :
  forallb isascii_isdigit octets = true ->
  Exists (fun o => exists e, BaseV4._parse_octet o = Raise e) octets ->
  validate_ip (join "." octets) = Ok None.
Proof.
  intros Hdig Hbad.
  assert (Hne : octets <> []) by (destruct Hbad; discriminate).
  assert (Hchars :
    forallb dotted_char (list_ascii_of_string (join "." octets)) = true).
  { apply forallb_chars_join; [reflexivity|].
    eapply forallb_weaken; [|exact Hdig]. apply digits_dotted. }
  assert (Hs : strip (join "." octets) = join "." octets).
  { apply strip_no_space.
    eapply forallb_weaken; [|exact Hchars]. apply dotted_char_no_space. }
  apply validate_ip_neither; rewrite Hs.
  - apply IPv4Address_init_bad_octet.
    rewrite split_join; [exact Hbad|exact Hne|].
    eapply forallb_weaken; [|exact Hdig]. apply digits_no_dot.
  - apply IPv6Address_init_no_colon.
    eapply forallb_contains; [exact Hchars|]. reflexivity.
Qed.

(** X10.  A dotted quad with an octet written with a leading zero, such as
    ["010.0.0.1"], is rejected: it is read neither as decimal nor as
    octal. *)
Theorem validate_ip_rejects_leading_zero a b c d :
  forallb isascii_isdigit [a; b; c; d] = true ->
  existsb leading_zero [a; b; c; d] = true ->
  validate_ip (join "." [a; b; c; d]) = Ok None.
Proof.
  intros Hdig Hz. apply reject_unparsable_octet; [exact Hdig|].
  apply existsb_exists in Hz as [o [Hin Ho]].
  apply List.Exists_exists. exists o. split; [exact Hin|].
  rewrite (parse_octet_leading_zero o Ho). eauto.
Qed.

Lemma validate_ip_rejects_leading_zero_witness :
  validate_ip "010.0.0.1" = Ok None.
Proof.
  apply (validate_ip_rejects_leading_zero "010" "0" "0" "1");
    vm_compute; reflexivity.
Defined.

(** X11.  A string with a slash in it, such as a network in CIDR notation, is
    never an address. *)
Theorem validate_ip_rejects_slash s :
  contains "/" (strip s) = true -> validate_ip s = Ok None.
Proof.
  intros H. apply validate_ip_neither.
  - unfold IPv4Address_init. rewrite H. reflexivity.
  - unfold IPv6Address_init. rewrite H. reflexivity.
Qed.

Lemma validate_ip_rejects_slash_witness :
  validate_ip "10.0.0.0/8" = Ok None /\ validate_ip "2001:db8::/32" = Ok None.
Proof.
  split; apply validate_ip_rejects_slash; vm_compute; reflexivity.
Defined.

(** ** The range of the addresses *)

Lemma int_digits_bound base s :
  forall acc v,
    1 <= base -> 0 <= acc -> int_digits base acc s = Ok v ->
    v < (acc + 1) * base ^ Z.of_nat (String.length s).
Proof.
  induction s as [|c s IH]; intros acc v Hb Hacc; cbn [int_digits].
  - intros [= <-]. cbn [String.length]. change (base ^ Z.of_nat 0) with 1. lia.
  - destruct (digit_value c) as [d|] eqn:Ed; [|discriminate].
    destruct (Z.ltb_spec d base) as [Hd|]; [|discriminate].
    pose proof (digit_value_nonneg _ _ Ed) as Hd0.
    intros H. apply IH in H; [|exact Hb|nia].
    cbn [String.length]. rewrite Nat2Z.inj_succ, Z.pow_succ_r by lia.
    assert (Hp : 0 <= base ^ Z.of_nat (String.length s))
      by (apply Z.pow_nonneg; lia).
    eapply Z.lt_le_trans; [exact H|].
    replace ((acc + 1) * (base * base ^ Z.of_nat (String.length s)))
      with (((acc + 1) * base) * base ^ Z.of_nat (String.length s)) by ring.
    apply Z.mul_le_mono_nonneg_r; [exact Hp|]. nia.
Qed.

Lemma parse_hextet_bound h v :
  BaseV6._parse_hextet h = Ok v -> 0 <= v < 65536.
Proof.
  unfold BaseV6._parse_hextet.
  destruct (negb (forallb _ _)); [discriminate|].
  destruct (Z.ltb_spec 4 (len_str h)) as [|Hlen]; [discriminate|].
  intros H. split; [apply (int_nonneg h 16); [lia|exact H]|].
  unfold int in H. destruct (truthy h); [|discriminate].
  apply int_digits_bound in H; [|lia|lia].
  unfold len_str in Hlen.
  eapply Z.lt_le_trans; [exact H|].
  change 65536 with ((0 + 1) * 16 ^ 4).
  apply Z.mul_le_mono_nonneg_l; [lia|].
  apply Z.pow_le_mono_r; lia.
Qed.

(** Shifting by a hextet and or-ing one in is adding it. *)
Lemma lor_shiftl_hextet x h :
  0 <= h < 65536 -> Z.lor (Z.shiftl x 16) h = x * 65536 + h.
Proof.
  intros Hh.
  assert (Hland : Z.land (Z.shiftl x 16) h = 0).
  { apply Z.bits_inj'. intros i Hi.
    rewrite Z.land_spec, Z.bits_0.
    destruct (Z.lt_ge_cases i 16) as [Hlt|Hge].
    - rewrite Z.shiftl_spec_low by exact Hlt. reflexivity.
    - destruct (Z.eq_dec h 0) as [->|Hne];
        [rewrite Z.bits_0; apply andb_false_r|].
      rewrite (Z.bits_above_log2 h i); [apply andb_false_r|lia|].
      assert (Z.log2 h < 16) by (apply Z.log2_lt_pow2; lia). lia. }
  pose proof (Z.add_lor_land (Z.shiftl x 16) h) as H.
  rewrite Hland in H. rewrite Z.shiftl_mul_pow2 in H |- * by lia.
  change (2 ^ 16) with 65536 in H |- *. lia.
Qed.

Lemma len_range a b : a <= b -> len (range a b) = b - a.
Proof.
  intros H. unfold len, range. rewrite length_map, length_seq. lia.
Qed.

Lemma len_cons {A} (x : A) l : len (x :: l) = len l + 1.
Proof. unfold len. cbn [length]. lia. Qed.

Lemma len_nonneg {A} (l : list A) : 0 <= len l.
Proof. unfold len. lia. Qed.

Lemma hextet_loop_bound (parts : list string) (l : list Z) :
  forall acc k,
    0 <= k -> 0 <= acc < 2 ^ k ->
    result_sat (fun v => 0 <= v < 2 ^ (k + 16 * len l)) (fun _ => True)
      (for_ l acc (fun i ip_int =>
         let ip_int := Z.shiftl ip_int 16 in
         let* part := getitem parts i in
         let* h := BaseV6._parse_hextet part in
         Ok (Z.lor ip_int h))).
Proof.
  induction l as [|i l IH]; intros acc k Hk Hacc; cbn [for_].
  - cbn [result_sat]. change (len (@nil Z)) with 0.
    rewrite Z.mul_0_r, Z.add_0_r. exact Hacc.
  - cbv zeta. destruct (getitem parts i) as [part|]; cbn [bind]; [|exact I].
    destruct (BaseV6._parse_hextet part) as [h|] eqn:Eh; cbn [bind];
      [|exact I].
    apply parse_hextet_bound in Eh.
    rewrite (lor_shiftl_hextet acc h Eh).
    rewrite len_cons.
    replace (k + 16 * (len l + 1)) with ((k + 16) + 16 * len l) by lia.
    apply IH; [lia|].
    rewrite Z.pow_add_r by lia. change (2 ^ 16) with 65536. nia.
Qed.

Lemma hextets_bound (parts : list string) (hi lo skipped : Z) :
  0 <= hi -> 0 <= lo -> 0 <= skipped -> hi + lo + skipped = 8 ->
  result_sat (fun n => 0 <= n < 2 ^ 128) (fun _ => True)
    (try_except
       (let* ip_int :=
          for_ (range 0 hi) 0 (fun i ip_int =>
            let ip_int := Z.shiftl ip_int 16 in
            let* part := getitem parts i in
            let* h := BaseV6._parse_hextet part in
            Ok (Z.lor ip_int h)) in
        let ip_int := Z.shiftl ip_int (16 * skipped) in
        for_ (range (- lo) 0) ip_int (fun i ip_int =>
          let ip_int := Z.shiftl ip_int 16 in
          let* part := getitem parts i in
          let* h := BaseV6._parse_hextet part in
          Ok (Z.lor ip_int h)))
       is_ValueError
       (Raise AddressValueError)).
Proof.
  intros Hhi Hlo Hsk Hsum.
  pose proof (hextet_loop_bound parts (range 0 hi) 0 0 ltac:(lia)
                ltac:(change (2 ^ 0) with 1; lia)) as H1.
  rewrite len_range in H1 by lia.
  destruct (for_ (range 0 hi) 0 _) as [x|e]; cbn [bind try_except];
    [|destruct (is_ValueError e); exact I].
  cbn [result_sat] in H1. cbv zeta.
  pose proof (hextet_loop_bound parts (range (- lo) 0)
                (Z.shiftl x (16 * skipped)) (16 * hi + 16 * skipped)
                ltac:(lia)) as H2.
  rewrite len_range in H2 by lia.
  replace (16 * hi + 16 * skipped + 16 * (0 - - lo)) with 128 in H2 by lia.
  assert (Hx : 0 <= Z.shiftl x (16 * skipped) < 2 ^ (16 * hi + 16 * skipped)).
  { rewrite Z.shiftl_mul_pow2 by lia.
    rewrite Z.pow_add_r by lia.
    assert (0 < 2 ^ (16 * skipped)) by (apply Z.pow_pos_nonneg; lia).
    replace (0 + 16 * (hi - 0)) with (16 * hi) in H1 by lia. nia. }
  specialize (H2 Hx).
  destruct (for_ (range (- lo) 0) _ _) as [y|e]; cbn [try_except];
    [exact H2|destruct (is_ValueError e); exact I].
Qed.

Lemma result_sat_any {A} (Q : A -> Prop) (r : result A) :
  (forall a, r = Ok a -> Q a) -> result_sat Q (fun _ => True) r.
Proof. destruct r; simpl; auto. Qed.

Lemma V6_ip_int_from_string_bound s :
  result_sat (fun n => 0 <= n < 2 ^ 128) (fun _ => True)
    (BaseV6._ip_int_from_string s).
Proof.
  unfold BaseV6._ip_int_from_string.
  destruct (truthy s); [|exact I]. cbn [negb]. cbv zeta.
  generalize (split ":" s). intros parts.
  destruct (len parts <? 3); [exact I|].
  apply result_sat_bind, result_sat_any. intros lp _.
  apply result_sat_bind, result_sat_any. intros parts' _. cbv beta.
  clear parts lp. rename parts' into parts.
  destruct (BaseV6._HEXTET_COUNT + 1 <? len parts); [exact I|].
  apply result_sat_bind.
  eapply result_sat_weaken; [| |apply find_skip_index_sat]; [|auto].
  intros skip Hskip. cbv beta in Hskip |- *.
  apply result_sat_bind.
  apply result_sat_weaken with
    (Q := fun t => match t with
                   | (hi, lo, sk) =>
                       0 <= hi /\ 0 <= lo /\ 0 <= sk /\ hi + lo + sk = 8
                   end)
    (P := fun _ => True); [| auto |].
  { intros [[hi lo] sk] (Hhi & Hlo & Hsk & Hsum).
    apply hextets_bound; assumption. }
  unfold BaseV6._HEXTET_COUNT.
  destruct skip as [k|].
  - apply result_sat_bind, result_sat_any. intros p0 _.
    apply result_sat_bind.
    apply result_sat_weaken with
      (Q := fun hi => 0 <= hi <= k) (P := fun _ => True); [| auto |].
    + intros hi Hhi.
      apply result_sat_bind, result_sat_any. intros pl _.
      apply result_sat_bind.
      apply result_sat_weaken with
        (Q := fun lo => 0 <= lo <= len parts - k - 1)
        (P := fun _ => True); [| auto |].
      * intros lo Hlo.
        destruct (Z.ltb_spec (8 - (hi + lo)) 1); [exact I|].
        cbn [result_sat]. lia.
      * destruct (truthy pl); cbn [negb]; [cbn [result_sat]; lia|].
        destruct (Z.eqb_spec (len parts - k - 1 - 1) 0); cbn [negb];
          [cbn [result_sat]; lia|exact I].
    + destruct (truthy p0); cbn [negb]; [cbn [result_sat]; lia|].
      destruct (Z.eqb_spec (k - 1) 0); cbn [negb];
        [cbn [result_sat]; lia|exact I].
  - destruct (Z.eqb_spec (len parts) 8) as [Hlen|]; [|exact I].
    cbn [negb].
    apply result_sat_bind, result_sat_any. intros p0 _.
    destruct (truthy p0); [|exact I]. cbn [negb].
    apply result_sat_bind, result_sat_any. intros pl _.
    destruct (truthy pl); [|exact I]. cbn [negb result_sat]. lia.
Qed.

(** X12.  The integer of an address that [validate_ip] returns fits the
    address family: 32 bits for IPv4, 128 bits for IPv6. *)
Theorem validated_address_in_range s a :
  validate_ip s = Ok (Some a) ->
  match a with
  | IPv4Address n => 0 <= n < 2 ^ 32
  | IPv6Address n _ => 0 <= n < 2 ^ 128
  end.
Proof.
  intros H. apply validate_ip_inv in H as [H|[_ H]].
  - apply IPv4Address_init_inv in H
      as (o1 & o2 & o3 & o4 & v1 & v2 & v3 & v4 & _ & H1 & H2 & H3 & H4 & ->).
    destruct (parse_octet_ok _ _ H1) as [_ B1].
    destruct (parse_octet_ok _ _ H2) as [_ B2].
    destruct (parse_octet_ok _ _ H3) as [_ B3].
    destruct (parse_octet_ok _ _ H4) as [_ B4].
    change (2 ^ 32) with 4294967296. lia.
  - unfold IPv6Address_init in H.
    destruct (contains "/" (strip s)); [discriminate|].
    destruct (BaseV6._split_scope_id (strip s)) as [[addr sc]|];
      cbn [bind] in H; [|discriminate].
    pose proof (V6_ip_int_from_string_bound addr) as Hb.
    destruct (BaseV6._ip_int_from_string addr) as [n|]; cbn [bind] in H;
      [|discriminate].
    injection H as <-. exact Hb.
Qed.

Lemma validated_address_in_range_witness :
  0 <= 340282366920938463463374607431768211455 < 2 ^ 128.
Proof.
  apply (validated_address_in_range
           "ffff:ffff:ffff:ffff:ffff:ffff:255.255.255.255"
           (IPv6Address 340282366920938463463374607431768211455 None)).
  vm_compute. reflexivity.
Defined.

(** ** Scope identifiers *)

Lemma contains_app c x y :
  contains c (x ++ y)%string = contains c x || contains c y.
Proof.
  induction x as [|d x IH]; [reflexivity|].
  change (contains c (String d (x ++ y)%string)
          = contains c (String d x) || contains c y).
  cbn [contains]. rewrite IH. apply orb_assoc.
Qed.

Lemma partition_no_sep sep s :
  contains sep s = false ->
  partition sep s = (s, EmptyString, EmptyString).
Proof.
  induction s as [|c s IH]; [reflexivity|].
  cbn [contains partition]. intros H. apply orb_false_iff in H as [Hc Hs].
  rewrite Hc, (IH Hs). reflexivity.
Qed.

Lemma partition_app sep a z :
  contains sep a = false ->
  partition sep (a ++ String sep z)%string = (a, String sep EmptyString, z).
Proof.
  induction a as [|c a IH].
  - intros _. change (partition sep (String sep z)
                      = (EmptyString, String sep EmptyString, z)).
    cbn [partition]. rewrite Ascii.eqb_refl. reflexivity.
  - cbn [contains]. intros H. apply orb_false_iff in H as [Hc Ha].
    change (partition sep (String c (a ++ String sep z)%string)
            = (String c a, String sep EmptyString, z)).
    cbn [partition]. rewrite Hc, (IH Ha). reflexivity.
Qed.

Lemma partition_found sep s :
  contains sep s = true -> truthy (partition sep s).1.2 = true.
Proof.
  induction s as [|c s IH]; [discriminate|].
  cbn [contains partition]. destruct (Ascii.eqb c sep); [reflexivity|].
  cbn [orb]. intros H. specialize (IH H).
  destruct (partition sep s) as [[a m] b]. exact IH.
Qed.

(** An address without scope has no percent sign. *)
Lemma split_scope_id_None t addr :
  BaseV6._split_scope_id t = Ok (addr, None) ->
  addr = t /\ contains "%" t = false.
Proof.
  unfold BaseV6._split_scope_id.
  destruct (contains "%" t) eqn:E.
  - pose proof (partition_found "%" t E) as Hsep.
    destruct (partition "%" t) as [[a m] b]. cbn in Hsep. rewrite Hsep.
    cbn [negb]. destruct (negb (truthy b) || contains "%" b); discriminate.
  - rewrite (partition_no_sep _ _ E). cbn. intros [= <-]. auto.
Qed.

Lemma IPv6Address_init_inv t n sc :
  IPv6Address_init t = Ok (IPv6Address n sc) ->
  contains "/" t = false
  /\ exists addr,
       BaseV6._split_scope_id t = Ok (addr, sc)
       /\ BaseV6._ip_int_from_string addr = Ok n.
Proof.
  unfold IPv6Address_init. intros H.
  destruct (contains "/" t); [discriminate|].
  destruct (BaseV6._split_scope_id t) as [[addr sc']|] eqn:E1;
    cbn [bind] in H; [|discriminate].
  destruct (BaseV6._ip_int_from_string addr) as [m|] eqn:E2;
    cbn [bind] in H; [|discriminate].
  injection H as <- <-. split; [reflexivity|].
  exists addr. split; [reflexivity|exact E2].
Qed.

Lemma rstrip_app x y :
  truthy y = true -> rstrip y = y -> rstrip (x ++ y)%string = (x ++ y)%string.
Proof.
  intros Hy Hr. induction x as [|c x IH]; [exact Hr|].
  change (rstrip (String c (x ++ y)%string) = String c (x ++ y)%string).
  cbn [rstrip]. rewrite IH.
  destruct (x ++ y)%string eqn:E; [|reflexivity].
  destruct x as [|d x].
  - change (y = EmptyString) in E. rewrite E in Hy. discriminate.
  - change (String d (x ++ y)%string = EmptyString) in E. discriminate.
Qed.

Lemma existsb_chars_app P a b :
  existsb P (list_ascii_of_string b) = true ->
  existsb P (list_ascii_of_string (a ++ b)%string) = true.
Proof.
  intros H. induction a as [|c a IH]; [exact H|].
  change (existsb P (c :: list_ascii_of_string (a ++ b)%string) = true).
  cbn [existsb]. rewrite IH. apply orb_true_r.
Qed.

(** X13.  A scope identifier is taken as it is.  When [a] validates as an IPv6
    address without scope, [a%z] validates as the same address with
    scope [z], for every non-empty [z] without percent sign or slash (and
    without a blank at its end, which trimming would remove): no check is
    made on the text of [z]. *)
Theorem scope_id_unchecked a z n :
  validate_ip a = Ok (Some (IPv6Address n None)) ->
  strip a = a ->
  truthy z = true -> rstrip z = z ->
  contains "%" z = false -> contains "/" z = false ->
  validate_ip (a ++ String "%" z) = Ok (Some (IPv6Address n (Some z))).
Proof.
  intros Ha Hsa Hz Hrz Hpz Hsz.
  apply validate_ip_inv in Ha as [Ha|[_ Ha]];
    [apply IPv4Address_init_inv in Ha
       as (? & ? & ? & ? & ? & ? & ? & ? & ? & ? & ? & ? & ? & ?);
     discriminate|].
  rewrite Hsa in Ha.
  apply IPv6Address_init_inv in Ha as (Hslash & addr & Hscope & Hip).
  apply split_scope_id_None in Hscope as [-> Hpa].
  assert (Hne : a <> EmptyString).
  { intros ->. vm_compute in Hip. discriminate. }
  assert (Hstrip : strip (a ++ String "%" z)%string = (a ++ String "%" z)%string).
  { unfold strip.
    assert (Hl : lstripped a)
      by (rewrite <- Hsa; apply rstrip_lstripped, lstrip_lstripped).
    rewrite lstripped_lstrip by (destruct a; [congruence|exact Hl]).
    apply rstrip_app; [reflexivity|].
    cbn [rstrip]. rewrite Hrz. destruct z; [discriminate|reflexivity]. }
  unfold validate_ip, ip_address. rewrite Hstrip.
  rewrite IPv4Address_init_bad_octet.
  - cbn [is_Address_or_Netmask_error].
    unfold IPv6Address_init.
    rewrite contains_app. cbn [contains]. rewrite Hslash, Hsz. cbn [orb].
    unfold BaseV6._split_scope_id. rewrite (partition_app _ _ _ Hpa).
    cbn [truthy negb]. rewrite Hz, Hpz. cbn [negb orb bind].
    rewrite Hip. reflexivity.
  - eapply List.Exists_impl;
      [|apply split_bad_char, existsb_chars_app; reflexivity].
    intros o Ho. rewrite (parse_octet_not_digits o Ho). eauto.
Qed.

Lemma scope_id_unchecked_witness :
  validate_ip "fe80::1%eth0 or any text"
  = Ok (Some (IPv6Address 338288524927261089654018896841347694593
                (Some "eth0 or any text"))).
Proof.
  apply (scope_id_unchecked "fe80::1" "eth0 or any text"); vm_compute;
    reflexivity.
Defined.

(** ** IPv6 addresses written in full *)

Lemma parse_hextet_ok h v :
  BaseV6._parse_hextet h = Ok v ->
  truthy h = true
  /\ forallb BaseV6._HEX_DIGITS (list_ascii_of_string h) = true.
Proof.
  unfold BaseV6._parse_hextet.
  destruct (forallb BaseV6._HEX_DIGITS (list_ascii_of_string h));
    cbn [negb]; [|discriminate].
  destruct (4 <? len_str h); [discriminate|].
  unfold int. destruct (truthy h); [auto|discriminate].
Qed.

Lemma hex_digit_no_space c :
  BaseV6._HEX_DIGITS c || Ascii.eqb c ":" = true -> negb (isspace c) = true.
Proof. by_cases_on_char c. Qed.

Lemma hex_digits_colon h :
  forallb BaseV6._HEX_DIGITS (list_ascii_of_string h) = true ->
  forallb (fun c => BaseV6._HEX_DIGITS c || Ascii.eqb c ":")
    (list_ascii_of_string h) = true.
Proof.
  apply forallb_weaken. intros c ->. reflexivity.
Qed.

Lemma hex_no_char h c :
  forallb BaseV6._HEX_DIGITS (list_ascii_of_string h) = true ->
  BaseV6._HEX_DIGITS c = false -> contains c h = false.
Proof. intros H Hc. eapply forallb_contains; [exact H|exact Hc]. Qed.

(** X14.  Eight hextets of one to four hexadecimal digits joined by colons are
    an IPv6 address without scope: the hextets in big-endian order. *)
Theorem validate_ip_full_ipv6 hs vs :
  length hs = 8%nat ->
  mapM BaseV6._parse_hextet hs = Ok vs ->
  validate_ip (join ":" hs)
  = Ok (Some (IPv6Address (fold_left (fun acc v => acc * 65536 + v) vs 0)
                None)).
Proof.
  intros Hlen Hm.
  destruct hs as [|h0 [|h1 [|h2 [|h3 [|h4 [|h5 [|h6 [|h7 [|h8 hs]]]]]]]]];
    try discriminate Hlen.
  clear Hlen. cbn [mapM] in Hm.
  destruct (BaseV6._parse_hextet h0) as [v0|] eqn:E0; cbn [bind] in Hm;
    [|discriminate].
  destruct (BaseV6._parse_hextet h1) as [v1|] eqn:E1; cbn [bind] in Hm;
    [|discriminate].
  destruct (BaseV6._parse_hextet h2) as [v2|] eqn:E2; cbn [bind] in Hm;
    [|discriminate].
  destruct (BaseV6._parse_hextet h3) as [v3|] eqn:E3; cbn [bind] in Hm;
    [|discriminate].
  destruct (BaseV6._parse_hextet h4) as [v4|] eqn:E4; cbn [bind] in Hm;
    [|discriminate].
  destruct (BaseV6._parse_hextet h5) as [v5|] eqn:E5; cbn [bind] in Hm;
    [|discriminate].
  destruct (BaseV6._parse_hextet h6) as [v6|] eqn:E6; cbn [bind] in Hm;
    [|discriminate].
  destruct (BaseV6._parse_hextet h7) as [v7|] eqn:E7; cbn [bind] in Hm;
    [|discriminate].
  injection Hm as <-.
  destruct (parse_hextet_ok _ _ E0) as [T0 X0].
  destruct (parse_hextet_ok _ _ E1) as [T1 X1].
  destruct (parse_hextet_ok _ _ E2) as [T2 X2].
  destruct (parse_hextet_ok _ _ E3) as [T3 X3].
  destruct (parse_hextet_ok _ _ E4) as [T4 X4].
  destruct (parse_hextet_ok _ _ E5) as [T5 X5].
  destruct (parse_hextet_ok _ _ E6) as [T6 X6].
  destruct (parse_hextet_ok _ _ E7) as [T7 X7].
  set (parts := [h0; h1; h2; h3; h4; h5; h6; h7]).
  assert (Hchars :
    forallb (fun c => BaseV6._HEX_DIGITS c || Ascii.eqb c ":")
      (list_ascii_of_string (join ":" parts)) = true).
  { apply forallb_chars_join; [reflexivity|].
    subst parts. cbn [forallb].
    rewrite !hex_digits_colon by assumption. reflexivity. }
  assert (Hstrip : strip (join ":" parts) = join ":" parts).
  { apply strip_no_space.
    eapply forallb_weaken; [|exact Hchars]. apply hex_digit_no_space. }
  assert (Hslash : contains "/" (join ":" parts) = false)
    by (eapply forallb_contains; [exact Hchars|reflexivity]).
  assert (Hpct : contains "%" (join ":" parts) = false)
    by (eapply forallb_contains; [exact Hchars|reflexivity]).
  assert (Hdot : contains "." (join ":" parts) = false)
    by (eapply forallb_contains; [exact Hchars|reflexivity]).
  assert (Htruthy : truthy (join ":" parts) = true)
    by (subst parts; apply truthy_app, T0).
  assert (Hsplit : split ":" (join ":" parts) = parts).
  { apply split_join; [discriminate|]. subst parts. cbn [forallb].
    rewrite !hex_no_char by (assumption || reflexivity). reflexivity. }
  unfold validate_ip, ip_address. rewrite Hstrip.
  assert (H4 : IPv4Address_init (join ":" parts) = Raise AddressValueError).
  { unfold IPv4Address_init. rewrite Hslash.
    unfold BaseV4._ip_int_from_string. rewrite Htruthy.
    rewrite (split_no_sep _ _ Hdot). reflexivity. }
  rewrite H4. cbn [is_Address_or_Netmask_error].
  unfold IPv6Address_init. rewrite Hslash.
  unfold BaseV6._split_scope_id. rewrite (partition_no_sep _ _ Hpct).
  cbn [truthy negb bind].
  unfold BaseV6._ip_int_from_string. rewrite Htruthy, Hsplit.
  cbn [negb]. cbv zeta.
  change (len parts <? 3) with false. cbv iota.
  change (getitem parts (-1)) with (Ok h7). cbn [bind].
  rewrite (hex_no_char h7 "." X7) by reflexivity. cbn [bind].
  change (BaseV6._HEXTET_COUNT + 1 <? len parts) with false. cbv iota.
  assert (Hskip : BaseV6.find_skip_index parts = Ok None).
  { unfold BaseV6.find_skip_index.
    change (range 1 (len parts - 1)) with [1; 2; 3; 4; 5; 6].
    cbn [for_].
    change (getitem parts 1) with (Ok h1).
    change (getitem parts 2) with (Ok h2).
    change (getitem parts 3) with (Ok h3).
    change (getitem parts 4) with (Ok h4).
    change (getitem parts 5) with (Ok h5).
    change (getitem parts 6) with (Ok h6).
    cbn [bind]. rewrite T1. cbn [negb bind]. rewrite T2. cbn [negb bind].
    rewrite T3. cbn [negb bind]. rewrite T4. cbn [negb bind].
    rewrite T5. cbn [negb bind]. rewrite T6. reflexivity. }
  rewrite Hskip. cbn [bind].
  change (len parts =? BaseV6._HEXTET_COUNT) with true. cbn [negb].
  change (getitem parts 0) with (Ok h0). cbn [bind]. rewrite T0. cbn [negb].
  change (getitem parts (-1)) with (Ok h7). cbn [bind]. rewrite T7.
  cbn [negb bind].
  change (range 0 (len parts)) with [0; 1; 2; 3; 4; 5; 6; 7].
  change (range (- 0) 0) with (@nil Z).
  cbn [for_].
  change (getitem parts 0) with (Ok h0).
  change (getitem parts 1) with (Ok h1).
  change (getitem parts 2) with (Ok h2).
  change (getitem parts 3) with (Ok h3).
  change (getitem parts 4) with (Ok h4).
  change (getitem parts 5) with (Ok h5).
  change (getitem parts 6) with (Ok h6).
  change (getitem parts 7) with (Ok h7).
  cbn [bind]. rewrite E0. cbn [bind]. rewrite E1. cbn [bind].
  rewrite E2. cbn [bind]. rewrite E3. cbn [bind]. rewrite E4. cbn [bind].
  rewrite E5. cbn [bind]. rewrite E6. cbn [bind]. rewrite E7.
  cbn [bind try_except fold_left].
  apply parse_hextet_bound in E0, E1, E2, E3, E4, E5, E6, E7.
  rewrite !lor_shiftl_hextet by assumption.
  change (16 * 0) with 0. rewrite Z.shiftl_0_r. reflexivity.
Qed.

Lemma validate_ip_full_ipv6_witness :
  validate_ip "2001:DB8:0:0:8:800:200c:417A"
  = Ok (Some (IPv6Address 42540766411282592856906245548098208122 None)).
Proof.
  apply (validate_ip_full_ipv6
           ["2001"; "DB8"; "0"; "0"; "8"; "800"; "200c"; "417A"]
           [8193; 3512; 0; 0; 8; 2048; 8204; 16762]);
    vm_compute; reflexivity.
Defined.

(** ** IPv6 addresses with a compressed run of zeros *)

Lemma mapM_parse_hextet_chars hs vs :
  mapM BaseV6._parse_hextet hs = Ok vs ->
  forallb (fun h => forallb BaseV6._HEX_DIGITS (list_ascii_of_string h)) hs
  = true.
Proof.
  revert vs. induction hs as [|h hs IH]; intros vs; [reflexivity|].
  cbn [mapM forallb].
  destruct (BaseV6._parse_hextet h) as [v|] eqn:E; cbn [bind]; [|discriminate].
  destruct (mapM BaseV6._parse_hextet hs) as [ws|]; cbn [bind];
    [|discriminate].
  intros _. apply parse_hextet_ok in E as [_ ->]. exact (IH ws eq_refl).
Qed.

Lemma hextets_chars_join hs :
  forallb (fun h => forallb BaseV6._HEX_DIGITS (list_ascii_of_string h)) hs
  = true ->
  forallb (fun c => BaseV6._HEX_DIGITS c || Ascii.eqb c ":")
    (list_ascii_of_string (join ":" hs)) = true.
Proof.
  intros H. apply forallb_chars_join; [reflexivity|].
  eapply forallb_weaken; [|exact H]. apply hex_digits_colon.
Qed.

Lemma hextets_no_colon hs :
  forallb (fun h => forallb BaseV6._HEX_DIGITS (list_ascii_of_string h)) hs
  = true ->
  forallb (fun o => negb (contains ":" o)) hs = true.
Proof.
  apply forallb_weaken. intros h Hh. apply negb_true_iff.
  apply hex_no_char; [exact Hh|reflexivity].
Qed.

(** The parts of [x::y]: those of [x], an empty one, those of [y]. *)
Lemma split_double_colon hi lo :
  forallb (fun o => negb (contains ":" o)) hi = true ->
  forallb (fun o => negb (contains ":" o)) lo = true ->
  split ":" (join ":" hi ++ String ":" (String ":" (join ":" lo)))
  = match hi with [] => [EmptyString] | _ => hi end
    ++ EmptyString :: match lo with [] => [EmptyString] | _ => lo end.
Proof.
  intros Hhi Hlo. rewrite split_app. f_equal.
  - destruct hi; [reflexivity|]. apply split_join; [discriminate|exact Hhi].
  - cbn [split]. rewrite Ascii.eqb_refl. f_equal.
    destruct lo; [reflexivity|]. apply split_join; [discriminate|exact Hlo].
Qed.

Ltac hextet_facts :=
  repeat match goal with
  | H : mapM BaseV6._parse_hextet _ = Ok _ |- _ =>
      progress cbn [mapM bind] in H
  | H : ?lhs = Ok _ |- _ =>
      lazymatch lhs with
      | BaseV6._parse_hextet _ => fail
      | context [BaseV6._parse_hextet ?h] =>
          let v := fresh "v" in
          let E := fresh "E" in
          destruct (BaseV6._parse_hextet h) as [v|] eqn:E; cbn [bind] in H;
          [|discriminate H]
      end
  | H : Ok _ = Ok _ |- _ => injection H as H; subst
  end;
  repeat match goal with
  | E : BaseV6._parse_hextet ?h = Ok ?v |- _ =>
      lazymatch goal with
      | _ : truthy h = true |- _ => fail
      | _ =>
          let T := fresh "T" in
          let X := fresh "X" in
          let B := fresh "B" in
          let D := fresh "D" in
          pose proof (parse_hextet_ok _ _ E) as [T X];
          pose proof (parse_hextet_bound _ _ E) as B;
          pose proof (hex_no_char h "."%char X eq_refl) as D;
          clear X
      end
  end.

(** Symbolic evaluation of the parser on a list of parts of known
    length: closed lengths, indices, ranges and tests are computed, the
    facts about the hextets are rewritten. *)
Ltac hextet_step :=
  first
  [ match goal with
    | H : truthy ?h = true |- context [truthy ?h] => rewrite H
    | H : contains "." ?h = false |- context [contains "." ?h] => rewrite H
    | H : BaseV6._parse_hextet ?h = Ok _
      |- context [BaseV6._parse_hextet ?h] => rewrite H
    end
  | match goal with
    | |- context [getitem ?l ?i] =>
        let r := eval vm_compute in (getitem l i) in
        lazymatch r with
        | Ok _ => change (getitem l i) with r
        | Raise _ => change (getitem l i) with r
        end
    end
  | match goal with
    | |- context [range ?a ?b] =>
        let r := eval vm_compute in (range a b) in
        lazymatch r with
        | nil => change (range a b) with r
        | cons _ _ => change (range a b) with r
        end
    end
  | match goal with
    | |- context [if ?c then _ else _] =>
        lazymatch c with
        | true => fail
        | false => fail
        | _ => idtac
        end;
        let r := eval vm_compute in c in
        lazymatch r with
        | true => change c with true
        | false => change c with false
        end
    end
  | progress cbn [bind for_ negb try_except app] ].

Ltac hextet_eval := repeat hextet_step.

Ltac close_shifts :=
  repeat match goal with
  | |- context [Z.shiftl _ ?e] =>
      lazymatch e with
      | Zpos _ => fail
      | Z0 => fail
      | _ => let r := eval vm_compute in e in change e with r
      end
  end.

Ltac close_powers :=
  repeat match goal with
  | |- context [2 ^ ?e] =>
      lazymatch e with
      | Zpos _ => fail
      | Z0 => fail
      | _ => let r := eval vm_compute in e in change e with r
      end
  end.

(** X15.  The compressed writing [x::y], where [x] and [y] are hextets joined
    by colons (either may be empty) and together have at most seven
    hextets, is the IPv6 address with the hextets of [x] at its top, those
    of [y] at its bottom and zeros between. *)
Theorem validate_ip_compressed_ipv6 hi lo vhi vlo :
  mapM BaseV6._parse_hextet hi = Ok vhi ->
  mapM BaseV6._parse_hextet lo = Ok vlo ->
  (length hi + length lo <= 7)%nat ->
  validate_ip (join ":" hi ++ String ":" (String ":" (join ":" lo)))
  = Ok (Some (IPv6Address
                (fold_left (fun acc v => acc * 65536 + v) vhi 0
                 * 2 ^ (16 * (8 - Z.of_nat (length hi)))
                 + fold_left (fun acc v => acc * 65536 + v) vlo 0)
                None)).
Proof.
  intros Mhi Mlo Hlen.
  pose proof (mapM_parse_hextet_chars _ _ Mhi) as Xhi.
  pose proof (mapM_parse_hextet_chars _ _ Mlo) as Xlo.
  set (t := (join ":" hi ++ String ":" (String ":" (join ":" lo)))%string).
  assert (Hchars :
    forallb (fun c => BaseV6._HEX_DIGITS c || Ascii.eqb c ":")
      (list_ascii_of_string t) = true).
  { subst t. rewrite forallb_chars_app, (hextets_chars_join _ Xhi).
    cbn [list_ascii_of_string forallb andb].
    rewrite (hextets_chars_join _ Xlo). reflexivity. }
  assert (Hstrip : strip t = t).
  { apply strip_no_space.
    eapply forallb_weaken; [|exact Hchars]. apply hex_digit_no_space. }
  assert (Hslash : contains "/" t = false)
    by (eapply forallb_contains; [exact Hchars|reflexivity]).
  assert (Hpct : contains "%" t = false)
    by (eapply forallb_contains; [exact Hchars|reflexivity]).
  assert (Hdot : contains "." t = false)
    by (eapply forallb_contains; [exact Hchars|reflexivity]).
  assert (Htruthy : truthy t = true).
  { subst t. destruct (join ":" hi); reflexivity. }
  pose proof (split_double_colon hi lo (hextets_no_colon _ Xhi)
                (hextets_no_colon _ Xlo)) as Hsplit.
  fold t in Hsplit.
  unfold validate_ip, ip_address. rewrite Hstrip.
  assert (H4 : IPv4Address_init t = Raise AddressValueError).
  { unfold IPv4Address_init. rewrite Hslash.
    unfold BaseV4._ip_int_from_string. rewrite Htruthy.
    rewrite (split_no_sep _ _ Hdot). reflexivity. }
  rewrite H4. cbn [is_Address_or_Netmask_error].
  unfold IPv6Address_init. rewrite Hslash.
  unfold BaseV6._split_scope_id. rewrite (partition_no_sep _ _ Hpct).
  cbn [truthy negb bind].
  unfold BaseV6._ip_int_from_string. rewrite Htruthy, Hsplit.
  clear Hsplit Htruthy H4 Hdot Hpct Hslash Hstrip Hchars Xhi Xlo.
  clearbody t. clear t.
  unfold BaseV6.find_skip_index.
  destruct hi as [|a0 [|a1 [|a2 [|a3 [|a4 [|a5 [|a6 [|a7 hi]]]]]]]];
    destruct lo as [|b0 [|b1 [|b2 [|b3 [|b4 [|b5 [|b6 [|b7 lo]]]]]]]];
    cbn [length] in Hlen; try lia; clear Hlen;
    hextet_facts.
  all: hextet_eval.
  all: close_shifts.
  all: rewrite ?lor_shiftl_hextet by assumption.
  all: rewrite ?Z.shiftl_mul_pow2 by lia.
  all: cbn [fold_left length]; close_powers.
  all: do 3 f_equal; ring.
Qed.

Lemma validate_ip_compressed_ipv6_witness :
  validate_ip "fe80::1"
  = Ok (Some (IPv6Address 338288524927261089654018896841347694593 None))
  /\ validate_ip "::" = Ok (Some (IPv6Address 0 None)).
Proof.
  split.
  - apply (validate_ip_compressed_ipv6 ["fe80"] ["1"] [65152] [1]);
      [vm_compute; reflexivity|vm_compute; reflexivity|simpl; lia].
  - apply (validate_ip_compressed_ipv6 [] [] [] []);
      [reflexivity|reflexivity|simpl; lia].
Defined.

(** ** IPv4-mapped IPv6 addresses *)

Lemma hex_char_is_hex d : 0 <= d < 16 -> BaseV6._HEX_DIGITS (hex_char d) = true.
Proof.
  intros Hd.
  assert (H : d = 0 \/ d = 1 \/ d = 2 \/ d = 3 \/ d = 4 \/ d = 5 \/ d = 6
              \/ d = 7 \/ d = 8 \/ d = 9 \/ d = 10 \/ d = 11 \/ d = 12
              \/ d = 13 \/ d = 14 \/ d = 15) by lia.
  repeat (destruct H as [->|H]; [reflexivity|]). subst d. reflexivity.
Qed.

Lemma format_x_pos_hex fuel :
  forall n acc,
    forallb BaseV6._HEX_DIGITS (list_ascii_of_string acc) = true ->
    forallb BaseV6._HEX_DIGITS
      (list_ascii_of_string (format_x_pos fuel n acc)) = true.
Proof.
  induction fuel as [|fuel IH]; intros n acc Hacc; cbn [format_x_pos];
    [exact Hacc|].
  assert (Hacc' :
    forallb BaseV6._HEX_DIGITS
      (list_ascii_of_string (String (hex_char (n mod 16)) acc)) = true).
  { cbn [list_ascii_of_string forallb].
    rewrite hex_char_is_hex by (apply Z.mod_pos_bound; lia). exact Hacc. }
  destruct (n / 16 =? 0); [exact Hacc'|]. apply IH, Hacc'.
Qed.

Lemma format_x_pos_length fuel :
  forall n acc k,
    1 <= k -> 0 <= n < 16 ^ k ->
    Z.of_nat (String.length (format_x_pos fuel n acc))
    <= Z.of_nat (String.length acc) + k.
Proof.
  induction fuel as [|fuel IH]; intros n acc k Hk Hn; cbn [format_x_pos];
    [lia|].
  destruct (Z.eqb_spec (n / 16) 0) as [Hq|Hq].
  - cbn [String.length]. lia.
  - assert (Hk2 : 2 <= k).
    { destruct (Z.eq_dec k 1) as [->|]; [|lia].
      change (16 ^ 1) with 16 in Hn. rewrite Z.div_small in Hq by lia. lia. }
    specialize (IH (n / 16) (String (hex_char (n mod 16)) acc) (k - 1)).
    cbn [String.length] in IH. rewrite Nat2Z.inj_succ in IH.
    assert (Hdiv : 0 <= n / 16 < 16 ^ (k - 1)).
    { split; [apply Z.div_pos; lia|].
      apply Z.div_lt_upper_bound; [lia|].
      replace k with (1 + (k - 1)) in Hn by lia.
      rewrite Z.pow_add_r in Hn by lia. change (16 ^ 1) with 16 in Hn. lia. }
    specialize (IH ltac:(lia) Hdiv). lia.
Qed.

(** What ['%x'] writes for a hextet parses back to it. *)
Lemma parse_hextet_format_x x :
  0 <= x < 65536 -> BaseV6._parse_hextet (format_x x) = Ok x.
Proof.
  intros Hx. unfold BaseV6._parse_hextet.
  unfold format_x at 1. rewrite format_x_pos_hex by reflexivity. cbn [negb].
  pose proof (format_x_pos_length (S (Z.to_nat (Z.log2 x))) x EmptyString 4
                ltac:(lia) ltac:(change (16 ^ 4) with 65536; lia)) as Hlen.
  cbn [String.length] in Hlen. fold (format_x x) in Hlen.
  destruct (Z.ltb_spec 4 (len_str (format_x x))) as [H|_];
    [unfold len_str in H; lia|].
  apply format_x_reads_back. lia.
Qed.

Lemma hextets_of_ipv4 n :
  0 <= n < 2 ^ 32 ->
  0 <= Z.land (Z.shiftr n 16) 65535 < 65536
  /\ 0 <= Z.land n 65535 < 65536
  /\ Z.land (Z.shiftr n 16) 65535 * 65536 + Z.land n 65535 = n.
Proof.
  intros Hn. change 65535 with (Z.ones 16).
  rewrite !Z.land_ones by lia. rewrite Z.shiftr_div_pow2 by lia.
  change (2 ^ 16) with 65536. change (2 ^ 32) with 4294967296 in Hn.
  assert (Hq : 0 <= n / 65536 < 65536).
  { split; [apply Z.div_pos; lia|apply Z.div_lt_upper_bound; lia]. }
  rewrite (Z.mod_small (n / 65536)) by exact Hq.
  pose proof (Z.mod_pos_bound n 65536 ltac:(lia)).
  pose proof (Z.div_mod n 65536 ltac:(lia)). lia.
Qed.

Lemma validated_v4_range s n :
  validate_ip s = Ok (Some (IPv4Address n)) -> 0 <= n < 2 ^ 32.
Proof.
  intros H. apply validate_ip_inv in H as [H|[_ H]];
    [|apply IPv6Address_init_is_v6 in H; discriminate].
  apply IPv4Address_init_inv in H
    as (o1 & o2 & o3 & o4 & v1 & v2 & v3 & v4 & _ & H1 & H2 & H3 & H4 & Hn).
  injection Hn as ->.
  destruct (parse_octet_ok _ _ H1) as [_ B1].
  destruct (parse_octet_ok _ _ H2) as [_ B2].
  destruct (parse_octet_ok _ _ H3) as [_ B3].
  destruct (parse_octet_ok _ _ H4) as [_ B4].
  change (2 ^ 32) with 4294967296. lia.
Qed.

(** X16.  An IPv4-mapped address.  When [q] is a dotted quad that
    validates as the IPv4 address [n], the text [::ffff:q] validates as
    the IPv6 address whose low 32 bits are [n] under sixteen one bits:
    the quad is read by the IPv4 constructor and rewritten as two
    hextets. *)
Theorem validate_ip_mapped_ipv4 q n :
  validate_ip q = Ok (Some (IPv4Address n)) ->
  strip q = q ->
  validate_ip ("::ffff:" ++ q)
  = Ok (Some (IPv6Address (281470681743360 + n) None)).
Proof.
  intros Hq Hsq.
  pose proof (validated_v4_range _ _ Hq) as Hn.
  apply validate_ip_inv in Hq as [Hq|[_ Hq]];
    [|apply IPv6Address_init_is_v6 in Hq; discriminate].
  rewrite Hsq in Hq.
  pose proof Hq as Hinv.
  apply IPv4Address_init_inv in Hinv
    as (o1 & o2 & o3 & o4 & v1 & v2 & v3 & v4 & Ht & H1 & H2 & H3 & H4 & _).
  destruct (parse_octet_ok _ _ H1) as [D1 _].
  destruct (parse_octet_ok _ _ H2) as [D2 _].
  destruct (parse_octet_ok _ _ H3) as [D3 _].
  destruct (parse_octet_ok _ _ H4) as [D4 _].
  assert (Hqchars : forallb dotted_char (list_ascii_of_string q) = true).
  { rewrite Ht. apply forallb_chars_join; [reflexivity|].
    cbn [forallb]. rewrite !digits_dotted by assumption. reflexivity. }
  assert (Hqdot : contains "." q = true).
  { rewrite Ht. change (join "." [o1; o2; o3; o4])
      with (o1 ++ String "." (join "." [o2; o3; o4]))%string.
    rewrite contains_app. cbn [contains]. rewrite Ascii.eqb_refl.
    apply orb_true_r. }
  clear Ht H1 H2 H3 H4 D1 D2 D3 D4 o1 o2 o3 o4 v1 v2 v3 v4.
  set (t := ("::ffff:" ++ q)%string).
  assert (Hchars :
    forallb (fun c => BaseV6._HEX_DIGITS c || dotted_char c || Ascii.eqb c ":")
      (list_ascii_of_string t) = true).
  { subst t. rewrite forallb_chars_app. cbn [andb].
    change (forallb _ (list_ascii_of_string "::ffff:")) with true.
    cbn [andb]. eapply forallb_weaken; [|exact Hqchars].
    intros c ->. rewrite orb_true_r. reflexivity. }
  assert (Hstrip : strip t = t).
  { apply strip_no_space.
    eapply forallb_weaken; [|exact Hchars]. intros c. by_cases_on_char c. }
  assert (Hslash : contains "/" t = false)
    by (eapply forallb_contains; [exact Hchars|reflexivity]).
  assert (Hpct : contains "%" t = false)
    by (eapply forallb_contains; [exact Hchars|reflexivity]).
  assert (Hsplit : split ":" t = [EmptyString; EmptyString; "ffff"; q]).
  { subst t.
    change ("::ffff:" ++ q)%string with ("::ffff" ++ String ":" q)%string.
    rewrite split_app.
    rewrite (split_no_sep ":" q)
      by (eapply forallb_contains; [exact Hqchars|reflexivity]).
    reflexivity. }
  destruct (hextets_of_ipv4 n Hn) as (Bhi & Blo & Hsum).
  pose proof (parse_hextet_format_x _ Bhi) as Ehi.
  pose proof (parse_hextet_format_x _ Blo) as Elo.
  pose proof (proj1 (parse_hextet_ok _ _ Ehi)) as Thi.
  pose proof (proj1 (parse_hextet_ok _ _ Elo)) as Tlo.
  pose proof (eq_refl : BaseV6._parse_hextet "ffff" = Ok 65535) as Effff.
  unfold validate_ip, ip_address. rewrite Hstrip.
  rewrite IPv4Address_init_bad_octet.
  2:{ eapply List.Exists_impl;
        [|apply split_bad_char; subst t; reflexivity].
      intros o Ho. rewrite (parse_octet_not_digits o Ho). eauto. }
  cbn [is_Address_or_Netmask_error].
  unfold IPv6Address_init. rewrite Hslash.
  unfold BaseV6._split_scope_id. rewrite (partition_no_sep _ _ Hpct).
  cbn [truthy negb bind].
  unfold BaseV6._ip_int_from_string.
  replace (truthy t) with true by (subst t; reflexivity).
  rewrite Hsplit. cbn [negb]. cbv zeta.
  change (len [EmptyString; EmptyString; "ffff"; q] <? 3) with false.
  cbv iota.
  change (getitem [EmptyString; EmptyString; "ffff"; q] (-1)) with (Ok q).
  cbn [bind]. rewrite Hqdot.
  change (pop [EmptyString; EmptyString; "ffff"; q])
    with (Ok (q, [EmptyString; EmptyString; "ffff"])).
  cbn [bind]. rewrite Hq. cbn [try_except bind _ip app].
  unfold BaseV6.find_skip_index.
  revert Ehi Elo Thi Tlo.
  generalize (format_x (Z.land (Z.shiftr n 16) 65535)).
  generalize (format_x (Z.land n 65535)).
  intros hlo hhi Ehi Elo Thi Tlo.
  hextet_eval. close_shifts.
  rewrite !lor_shiftl_hextet by (assumption || lia).
  rewrite ?Z.shiftl_mul_pow2 by lia.
  do 3 f_equal. lia.
Qed.

Lemma validate_ip_mapped_ipv4_witness :
  validate_ip "::ffff:192.0.2.1"
  = Ok (Some (IPv6Address 281473902969345 None)).
Proof.
  apply (validate_ip_mapped_ipv4 "192.0.2.1" 3221225985);
    vm_compute; reflexivity.
Defined.
